(** * webgpu-gltf-viewer: a shallow embedding of the render orchestrator,
      the mesh/texture extraction and the providers, with the properties
      of the design document checked against it.

    Layout of the development:
    - [Js]      : the few JavaScript value notions the sources rely on
                  (exceptions, numbers held in typed arrays, [Math.max],
                  [Math.floor], typed-array stores);
    - [Gltf]    : the part of the glTF-Transform document API that
                  [extractMesh] and [loadTexture] call;
    - [Gpu]     : the device-side objects (textures, buffers, bind groups,
                  pipelines) and the commands recorded in a pass;
    - [Extract] : [extractMesh], [loadTexture], [_createDefaultTexture];
    - [Shader]  : the constant tables of [fullscreen.vert];
    - [Providers] : [TriangleRenderer], [ModelRenderer],
                  [PostProcessingRenderer];
    - [Hook]    : the [useWebGPU] hook: [initWebGPU], [render], [resize],
                  the effect and its cleanup, run as interleaved tasks;
    - [Notions], [Samples] : the predicates and the concrete inputs the
                  statements use;
    then the properties, grouped by component. *)

From Stdlib Require Import ZArith QArith Qround Lia List String Bool.
From stdpp Require Import base option list strings gmap.
Import ListNotations.

Local Open Scope string_scope.
Local Open Scope list_scope.
Local Open Scope Z_scope.

(* ===================================================================== *)
(** ** JavaScript values                                                  *)
(* ===================================================================== *)
Module Js.

(** The outcome of a call that may [throw]: the sources only ever throw
    [new Error(message)] and only ever read [error.message]. *)
Inductive result (A : Type) : Type :=
| Ok (a : A)
| Throw (message : string).
Arguments Ok {A} a.
Arguments Throw {A} message.

(** A number stored in a [Float32Array].  The code modelled here only
    creates [0.0], copies elements from one array to another and stores
    [undefined] (which a typed array turns into NaN), so the value is kept
    as the IEEE-754 datum it denotes. *)
Inductive f32 : Type :=
| f32_zero (neg : bool)
| f32_inf (neg : bool)
| f32_nan
| f32_finite (neg : bool) (mantissa : positive) (exponent : Z).

Definition zero : f32 := f32_zero false.   (* the literal 0.0 *)

(** [Math.max(...xs)] over unsigned integers: [-Infinity] on no
    argument. *)
Inductive extended : Type :=
| NegInfinity
| Finite (z : Z).

Definition max2 (acc : extended) (x : Z) : extended :=
  match acc with
  | NegInfinity => Finite x
  | Finite a => Finite (Z.max a x)
  end.

Definition Math_max (xs : list Z) : extended := fold_left max2 xs NegInfinity.

(** [m <= k] for a finite [k]. *)
Definition le_int (m : extended) (k : Z) : bool :=
  match m with
  | NegInfinity => true
  | Finite z => z <=? k
  end.

(** A JavaScript number that is the quotient or product of small
    integers, kept as a reduced fraction.  This is exact whenever the
    double is an integer; for the other values it is a stand-in whose
    [Math.floor] and comparisons with integers agree with the double's
    for all operands below 2^50. *)
Definition number := Q.

Definition of_nat (n : nat) : number := inject_Z (Z.of_nat n).
Definition div (a b : number) : number := Qred (a / b).
Definition mul (a b : number) : number := Qred (a * b).

(** [Math.floor], also the truncation [ToIndex] applies to a
    non-negative length. *)
Definition Math_floor (x : number) : Z := Qfloor x.
Definition ToIndex (x : number) : nat := Z.to_nat (Qfloor x).

(** [i < x] for an integer loop counter [i]. *)
Definition lt_number (i : nat) (x : number) : bool :=
  match (of_nat i ?= x)%Q with Lt => true | _ => false end.

(** Conversions applied by [new Uint16Array(xs)] and
    [new Uint32Array(xs)] to each integer element. *)
Definition ToUint16 (z : Z) : Z := z mod 65536.
Definition ToUint32 (z : Z) : Z := z mod 4294967296.

(** [a[i] = v] on a typed array: a store past the end is ignored. *)
Definition store {A} (a : list A) (i : nat) (v : A) : list A := <[i := v]> a.

(** [a[i]] on a [Float32Array] as the right-hand side of a store into
    another [Float32Array]: a read past the end yields [undefined], which
    the store converts to NaN. *)
Definition load_f32 (a : list f32) (i : nat) : f32 :=
  match a !! i with
  | Some v => v
  | None => f32_nan
  end.

End Js.
Export Js.

(* ===================================================================== *)
(** ** The glTF-Transform document, as far as the sources query it        *)
(* ===================================================================== *)
Module Gltf.

(** [Texture]: [getMimeType()] is the empty string when unset,
    [getImage()] is a [Uint8Array] or [null]. *)
Record Texture : Type := {
  getMimeType : string;
  getImage : option (list Z)
}.

Record Material : Type := {
  getBaseColorTexture : option Texture
}.

(** [Primitive]: attributes by semantic name, each with the flat array
    its accessor returns from [getArray()]; the optional index accessor
    holds unsigned integers. *)
Record Primitive : Type := {
  attributes : gmap string (list f32);
  getIndices : option (list Z)
}.

Definition getAttribute (p : Primitive) (semantic : string) : option (list f32) :=
  attributes p !! semantic.

Record Mesh : Type := {
  listPrimitives : list Primitive
}.

(** [document.getRoot()] with its three listings. *)
Record Document : Type := {
  listMeshes : list Mesh;
  listMaterials : list Material;
  listTextures : list Texture
}.

End Gltf.
Export Gltf.

(* ===================================================================== *)
(** ** Device-side objects                                                *)
(* ===================================================================== *)
Module Gpu.

(** Flag constants of the WebGPU interface ([GPUTextureUsage],
    [GPUBufferUsage], [GPUShaderStage]); the sources combine them with
    [|]. *)
Module TextureUsage.
Definition COPY_SRC : Z := 1.
Definition COPY_DST : Z := 2.
Definition TEXTURE_BINDING : Z := 4.
Definition STORAGE_BINDING : Z := 8.
Definition RENDER_ATTACHMENT : Z := 16.
End TextureUsage.

Module BufferUsage.
Definition COPY_DST : Z := 8.
Definition INDEX : Z := 16.
Definition VERTEX : Z := 32.
Definition UNIFORM : Z := 64.
End BufferUsage.

Module ShaderStage.
Definition VERTEX : Z := 1.
Definition FRAGMENT : Z := 2.
End ShaderStage.

(** Handles are positions in the store below. *)
Abbreviation handle := nat (only parsing).

(** What [createImageBitmap] decodes to. *)
Record ImageBitmap : Type := {
  bitmap_width : Z;
  bitmap_height : Z
}.

(** Contents last copied into a texture. *)
Inductive Texels : Type :=
| Unwritten
| TexelBytes (data : list Z) (bytesPerRow : Z) (width height : Z)
| ExternalImage (source : ImageBitmap) (width height : Z).

Record GPUTexture : Type := {
  tex_width : Z;
  tex_height : Z;
  tex_format : string;
  tex_usage : Z;
  tex_label : option string;
  tex_destroyed : bool;
  tex_texels : Texels
}.

(** Data handed to [queue.writeBuffer].  The two matrix products and the
    colour vector of the [update] methods are floating-point results and
    are kept symbolic. *)
Inductive Payload : Type :=
| Floats (data : list f32)
| Uint16s (data : list Z)
| Uint32s (data : list Z)
| TriangleMvp (rotation_steps : nat) (canvas_width canvas_height : Z)
| ModelMvp (rotation_steps : nat) (canvas_width canvas_height : Z)
| ColorOfHex (hex : string).

Record GPUBuffer : Type := {
  buf_size : Z;
  buf_usage : Z;
  buf_label : string;
  buf_writes : list (Z * Payload)      (* (byte offset, data), newest first *)
}.

Inductive BindingResource : Type :=
| BufferBinding (buffer : handle)
| SamplerBinding (sampler : handle)
| TextureViewBinding (texture : handle).

Record GPUBindGroup : Type := {
  bg_layout : handle;
  bg_entries : list (Z * BindingResource)
}.

Record VertexAttribute : Type := {
  shaderLocation : Z;
  attr_offset : Z;
  attr_format : string
}.

Record VertexBufferLayout : Type := {
  arrayStride : Z;
  vb_attributes : list VertexAttribute
}.

Record DepthStencil : Type := {
  ds_format : string;
  depthWriteEnabled : bool;
  depthCompare : string
}.

Record GPURenderPipeline : Type := {
  pl_label : string;
  pl_layout : handle;
  pl_vertex_module : handle;
  pl_vertex_buffers : list VertexBufferLayout;
  pl_fragment_module : handle;
  pl_target_format : string;
  pl_topology : string;
  pl_cullMode : option string;
  pl_depthStencil : option DepthStencil
}.

Record GPUSampler : Type := {
  magFilter : string;
  minFilter : string;
  addressModeU : option string;
  addressModeV : option string
}.

Record BindGroupLayoutEntry : Type := {
  le_binding : Z;
  le_visibility : Z;
  le_kind : string          (* "uniform buffer", "sampler", "float texture" *)
}.

(** Commands recorded in a render pass. *)
Inductive IndexFormat : Type := uint16 | uint32.

Inductive Command : Type :=
| SetPipeline (pipeline : option handle)
| SetBindGroup (index : Z) (group : option handle)
| SetVertexBuffer (slot : Z) (buffer : option handle)
| SetIndexBuffer (buffer : handle) (format : IndexFormat)
| Draw (vertexCount : number)
| DrawIndexed (indexCount : nat).

(** The colour attachment of a pass is a view of an offscreen texture or
    of the canvas' current texture. *)
Inductive ColorTarget : Type :=
| OffscreenView (texture : handle)
| CanvasView.

Record RenderPass : Type := {
  rp_label : string;
  rp_color : ColorTarget;
  rp_depth : option handle;
  rp_commands : list Command
}.

Definition CommandBuffer := list RenderPass.

(** Everything created through any [GPUDevice], and what was submitted. *)
Record Store : Type := {
  textures : list GPUTexture;
  buffers : list GPUBuffer;
  bindGroups : list GPUBindGroup;
  pipelines : list GPURenderPipeline;
  samplers : list GPUSampler;
  shaderModules : list (string * string);            (* (label, code) *)
  bindGroupLayouts : list (list BindGroupLayoutEntry);
  pipelineLayouts : list (list handle)
}.

Definition empty : Store :=
  {| textures := []; buffers := []; bindGroups := []; pipelines := [];
     samplers := []; shaderModules := []; bindGroupLayouts := [];
     pipelineLayouts := [] |}.

Definition set_textures (f : list GPUTexture -> list GPUTexture) (g : Store) : Store :=
  {| textures := f (textures g); buffers := buffers g; bindGroups := bindGroups g;
     pipelines := pipelines g; samplers := samplers g;
     shaderModules := shaderModules g; bindGroupLayouts := bindGroupLayouts g;
     pipelineLayouts := pipelineLayouts g |}.

Definition set_buffers (f : list GPUBuffer -> list GPUBuffer) (g : Store) : Store :=
  {| textures := textures g; buffers := f (buffers g); bindGroups := bindGroups g;
     pipelines := pipelines g; samplers := samplers g;
     shaderModules := shaderModules g; bindGroupLayouts := bindGroupLayouts g;
     pipelineLayouts := pipelineLayouts g |}.

(** [device.createTexture(descriptor)] *)
Definition createTexture (width height : Z) (format : string) (usage : Z)
    (label : option string) (g : Store) : handle * Store :=
  (length (textures g),
   set_textures (fun ts => ts ++ [ {| tex_width := width; tex_height := height;
                                      tex_format := format; tex_usage := usage;
                                      tex_label := label; tex_destroyed := false;
                                      tex_texels := Unwritten |} ]) g).

Definition with_destroyed (t : GPUTexture) : GPUTexture :=
  {| tex_width := tex_width t; tex_height := tex_height t;
     tex_format := tex_format t; tex_usage := tex_usage t;
     tex_label := tex_label t; tex_destroyed := true;
     tex_texels := tex_texels t |}.

Definition with_texels (x : Texels) (t : GPUTexture) : GPUTexture :=
  {| tex_width := tex_width t; tex_height := tex_height t;
     tex_format := tex_format t; tex_usage := tex_usage t;
     tex_label := tex_label t; tex_destroyed := tex_destroyed t;
     tex_texels := x |}.

(** [texture.destroy()] *)
Definition destroyTexture (t : handle) (g : Store) : Store :=
  set_textures (alter with_destroyed t) g.

(** [device.queue.writeTexture({texture}, data, {bytesPerRow}, {width, height})] *)
Definition writeTexture (t : handle) (data : list Z) (bytesPerRow width height : Z)
    (g : Store) : Store :=
  set_textures (alter (with_texels (TexelBytes data bytesPerRow width height)) t) g.

(** [device.queue.copyExternalImageToTexture({source}, {texture}, {width, height})] *)
Definition copyExternalImageToTexture (source : ImageBitmap) (t : handle)
    (width height : Z) (g : Store) : Store :=
  set_textures (alter (with_texels (ExternalImage source width height)) t) g.

(** [device.createBuffer({label, size, usage})] *)
Definition createBuffer (size usage : Z) (label : string) (g : Store) : handle * Store :=
  (length (buffers g),
   set_buffers (fun bs => bs ++ [ {| buf_size := size; buf_usage := usage;
                                     buf_label := label; buf_writes := [] |} ]) g).

Definition with_write (offset : Z) (data : Payload) (b : GPUBuffer) : GPUBuffer :=
  {| buf_size := buf_size b; buf_usage := buf_usage b; buf_label := buf_label b;
     buf_writes := (offset, data) :: buf_writes b |}.

(** [device.queue.writeBuffer(buffer, offset, data)] *)
Definition writeBuffer (b : handle) (offset : Z) (data : Payload) (g : Store) : Store :=
  set_buffers (alter (with_write offset data) b) g.

Definition createShaderModule (code label : string) (g : Store) : handle * Store :=
  (length (shaderModules g),
   {| textures := textures g; buffers := buffers g; bindGroups := bindGroups g;
      pipelines := pipelines g; samplers := samplers g;
      shaderModules := shaderModules g ++ [(label, code)];
      bindGroupLayouts := bindGroupLayouts g;
      pipelineLayouts := pipelineLayouts g |}).

Definition createSampler (s : GPUSampler) (g : Store) : handle * Store :=
  (length (samplers g),
   {| textures := textures g; buffers := buffers g; bindGroups := bindGroups g;
      pipelines := pipelines g; samplers := samplers g ++ [s];
      shaderModules := shaderModules g; bindGroupLayouts := bindGroupLayouts g;
      pipelineLayouts := pipelineLayouts g |}).

Definition createBindGroupLayout (es : list BindGroupLayoutEntry) (g : Store)
    : handle * Store :=
  (length (bindGroupLayouts g),
   {| textures := textures g; buffers := buffers g; bindGroups := bindGroups g;
      pipelines := pipelines g; samplers := samplers g;
      shaderModules := shaderModules g;
      bindGroupLayouts := bindGroupLayouts g ++ [es];
      pipelineLayouts := pipelineLayouts g |}).

Definition createBindGroup (bg : GPUBindGroup) (g : Store) : handle * Store :=
  (length (bindGroups g),
   {| textures := textures g; buffers := buffers g;
      bindGroups := bindGroups g ++ [bg];
      pipelines := pipelines g; samplers := samplers g;
      shaderModules := shaderModules g; bindGroupLayouts := bindGroupLayouts g;
      pipelineLayouts := pipelineLayouts g |}).

Definition createPipelineLayout (ls : list handle) (g : Store) : handle * Store :=
  (length (pipelineLayouts g),
   {| textures := textures g; buffers := buffers g; bindGroups := bindGroups g;
      pipelines := pipelines g; samplers := samplers g;
      shaderModules := shaderModules g; bindGroupLayouts := bindGroupLayouts g;
      pipelineLayouts := pipelineLayouts g ++ [ls] |}).

Definition createRenderPipeline (p : GPURenderPipeline) (g : Store) : handle * Store :=
  (length (pipelines g),
   {| textures := textures g; buffers := buffers g; bindGroups := bindGroups g;
      pipelines := pipelines g ++ [p]; samplers := samplers g;
      shaderModules := shaderModules g; bindGroupLayouts := bindGroupLayouts g;
      pipelineLayouts := pipelineLayouts g |}).

End Gpu.

(* ===================================================================== *)
(** ** extractMesh.js and loadTexture.js                                  *)
(* ===================================================================== *)
Module Extract.
Import Gpu.

(** The [indices] field of the result: which typed array was built. *)
Inductive IndexData : Type :=
| Uint16Array (elements : list Z)
| Uint32Array (elements : list Z).

Definition byteLength (d : IndexData) : Z :=
  match d with
  | Uint16Array l => 2 * Z.of_nat (length l)
  | Uint32Array l => 4 * Z.of_nat (length l)
  end.

Record MeshData : Type := {
  positions : list f32;
  texcoords : list f32;
  indices : option IndexData;
  vertexCount : number;
  indexCount : nat
}.

(** [new Float32Array(n)] *)
Definition new_Float32Array (n : nat) : list f32 := repeat zero n.

(** [for (let i = 0; i < a.length; i++) a[i] = 0.0] *)
Definition fill_default_uv (a : list f32) : list f32 :=
  fold_left (fun acc i => store acc i zero) (seq 0 (length a)) a.

Definition convert_indices (arr : list Z) : IndexData :=
  let maxIndex := Math_max arr in
  if le_int maxIndex 65535
  then Uint16Array (map ToUint16 arr)
  else Uint32Array (map ToUint32 arr).

Definition no_meshes : string := "No meshes found in glTF document".
Definition no_primitives : string := "No primitives found in mesh".
Definition no_position : string := "POSITION attribute not found in primitive".

Definition extractMesh (document : Document) : result MeshData :=
  match listMeshes document with
  | [] => Throw no_meshes
  | mesh :: _ =>
    match listPrimitives mesh with
    | [] => Throw no_primitives
    | primitive :: _ =>
      match getAttribute primitive "POSITION" with
      | None => Throw no_position
      | Some positions0 =>
        let vertexCount0 := div (of_nat (length positions0)) (of_nat 3) in
        let texcoords0 :=
          match getAttribute primitive "TEXCOORD_0" with
          | Some uv => uv
          | None => fill_default_uv (new_Float32Array (ToIndex (mul vertexCount0 (of_nat 2))))
          end in
        let '(indices0, indexCount0) :=
          match getIndices primitive with
          | Some arr => (Some (convert_indices arr), length arr)
          | None => (None, 0%nat)
          end in
        Ok {| positions := positions0; texcoords := texcoords0;
              indices := indices0; vertexCount := vertexCount0;
              indexCount := indexCount0 |}
      end
    end
  end.

(** *** loadTexture *)

(** What the platform answers to the two calls of [loadTexture] that can
    fail: [createImageBitmap(new Blob([bytes], {type}))] (awaited inside a
    [try]) and [copyExternalImageToTexture] (not guarded). *)
Record Platform : Type := {
  createImageBitmap : list Z -> string -> result ImageBitmap;
  copy_rejects : ImageBitmap -> option string
}.

Definition default_texels : list Z :=
  [255; 0; 0; 255;
   0; 255; 0; 255;
   0; 0; 255; 255;
   255; 255; 0; 255].

Definition _createDefaultTexture (g : Store) : handle * Store :=
  let '(texture, g1) :=
    createTexture 2 2 "rgba8unorm"
      (Z.lor TextureUsage.TEXTURE_BINDING TextureUsage.COPY_DST) None g in
  (texture, writeTexture texture default_texels 8 2 2 g1).

(** The [for (const material of materials)] loop with its [break]. *)
Fixpoint first_baseColorTexture (materials : list Material) : option Texture :=
  match materials with
  | [] => None
  | material :: rest =>
    match getBaseColorTexture material with
    | Some t => Some t
    | None => first_baseColorTexture rest
    end
  end.

Definition select_texture (document : Document) : option Texture :=
  match first_baseColorTexture (listMaterials document) with
  | Some t => Some t
  | None =>
    match listTextures document with
    | t :: _ => Some t
    | [] => None
    end
  end.

(** [texture.getMimeType() || 'image/png'] *)
Definition mimeType_of (t : Texture) : string :=
  if decide (getMimeType t = "") then "image/png" else getMimeType t.

Definition loadTexture (pf : Platform) (document : Document) (g : Store)
    : result handle * Store :=
  match select_texture document with
  | None =>
    let '(t, g1) := _createDefaultTexture g in (Ok t, g1)
  | Some texture =>
    let mimeType := mimeType_of texture in
    match getImage texture with
    | None =>
      let '(t, g1) := _createDefaultTexture g in (Ok t, g1)
    | Some imageBytes =>
      if (length imageBytes =? 0)%nat then
        let '(t, g1) := _createDefaultTexture g in (Ok t, g1)
      else if decide (mimeType = "image/ktx2") then
        let '(t, g1) := _createDefaultTexture g in (Ok t, g1)
      else
        match createImageBitmap pf imageBytes mimeType with
        | Throw _ =>
          let '(t, g1) := _createDefaultTexture g in (Ok t, g1)
        | Ok bitmap =>
          let '(gpuTexture, g1) :=
            createTexture (bitmap_width bitmap) (bitmap_height bitmap)
              "rgba8unorm-srgb"
              (Z.lor (Z.lor TextureUsage.TEXTURE_BINDING TextureUsage.COPY_DST)
                     TextureUsage.RENDER_ATTACHMENT)
              (Some "Model baseColor texture") g in
          match copy_rejects pf bitmap with
          | Some m => (Throw m, g1)
          | None =>
            (Ok gpuTexture,
             copyExternalImageToTexture bitmap gpuTexture
               (bitmap_width bitmap) (bitmap_height bitmap) g1)
          end
        end
    end
  end.

End Extract.

(* ===================================================================== *)
(** ** public/shaders/fullscreen.vert                                     *)
(* ===================================================================== *)
Module Shader.

Definition vec2f : Type := Q * Q.
Definition vec4f : Type := Q * Q * Q * Q.

Record VSOut : Type := {
  position : vec4f;
  uv : vec2f
}.

(** [var pos = array<vec2f, 6>(...)] *)
Definition pos : list vec2f :=
  [ (-1, -1); (1, -1); (-1, 1);
    (-1, 1); (1, -1); (1, 1) ]%Q.

(** [var uv = array<vec2f, 6>(...)] *)
Definition uv_table : list vec2f :=
  [ (0, 1); (1, 1); (0, 0);
    (0, 0); (1, 1); (1, 0) ]%Q.

(** [fn main(@builtin(vertex_index) vid : u32) -> VSOut]; the result for
    an index outside both tables is left undetermined. *)
Definition main (vid : nat) : option VSOut :=
  match pos !! vid, uv_table !! vid with
  | Some p, Some t =>
    Some {| position := (fst p, snd p, 0, 1)%Q; uv := t |}
  | _, _ => None
  end.

(** The values of [vertex_index] for a non-instanced [draw(n)]. *)
Definition vertex_indices (n : nat) : list nat := seq 0 n.

End Shader.

(* ===================================================================== *)
(** ** The three providers                                                *)
(* ===================================================================== *)
Module Providers.
Import Gpu Extract.

Record Canvas : Type := {
  canvas_width : Z;
  canvas_height : Z
}.

(** [resources.loadShader(path)]: the fetched text, or the error it
    rethrows. *)
Definition ShaderFetch := string -> result string.

(** [await Promise.all([loadShader(a), loadShader(b)])] *)
Definition load_both (fetch : ShaderFetch) (a b : string) : result (string * string) :=
  match fetch a, fetch b with
  | Ok x, Ok y => Ok (x, y)
  | Throw m, _ => Throw m
  | Ok _, Throw m => Throw m
  end.

Definition uniform_entry (binding visibility : Z) : BindGroupLayoutEntry :=
  {| le_binding := binding; le_visibility := visibility; le_kind := "uniform buffer" |}.
Definition sampler_entry (binding visibility : Z) : BindGroupLayoutEntry :=
  {| le_binding := binding; le_visibility := visibility; le_kind := "sampler" |}.
Definition texture_entry (binding visibility : Z) : BindGroupLayoutEntry :=
  {| le_binding := binding; le_visibility := visibility; le_kind := "float texture" |}.

Definition depth24plus_less : DepthStencil :=
  {| ds_format := "depth24plus"; depthWriteEnabled := true; depthCompare := "less" |}.

(** [queue.writeBuffer] through a field that may still be [null]: the
    platform's reaction to [null] is left to the frame's failure oracle. *)
Definition writeBuffer_field (b : option handle) (offset : Z) (data : Payload)
    (g : Store) : Store :=
  match b with
  | Some h => writeBuffer h offset data g
  | None => g
  end.

(* ------------------------------------------------------------------- *)
(** *** TriangleRenderer *)
Module Triangle.

(** The fields assigned by the constructor; the class has no
    [isInitialized] property. *)
Record t : Type := {
  resources : handle;
  vertices : list f32;
  vertexBuffer : option handle;
  uniformBuffer : option handle;
  bindGroup : option handle;
  pipeline : option handle;
  rotation : nat                 (* number of [+= 0.1] steps taken *)
}.

Definition half (neg : bool) : f32 := f32_finite neg 1 (-1).
Definition one : f32 := f32_finite false 1 0.

Definition constructor (res : handle) : t :=
  {| resources := res;
     vertices := [ zero; half false; zero; one;
                   half true; half true; zero; one;
                   half false; half true; zero; one ];
     vertexBuffer := None; uniformBuffer := None;
     bindGroup := None; pipeline := None;
     rotation := 0 |}.

Definition initialize (fetch : ShaderFetch) (presentationFormat : string)
    (self : t) (g : Store) : result unit * t * Store :=
  match load_both fetch "./shaders/triangle.vert" "./shaders/triangle.frag" with
  | Throw m => (Throw m, self, g)
  | Ok (vertexShaderCode, fragmentShaderCode) =>
    let '(vertexShaderModule, g) :=
      createShaderModule vertexShaderCode "Triangle Vertex Shader" g in
    let '(fragmentShaderModule, g) :=
      createShaderModule fragmentShaderCode "Triangle Fragment Shader" g in
    let '(vb, g) :=
      createBuffer (4 * Z.of_nat (length (vertices self)))
        (Z.lor BufferUsage.VERTEX BufferUsage.COPY_DST) "Triangle vertices" g in
    let g := writeBuffer vb 0 (Floats (vertices self)) g in
    let '(ub, g) :=
      createBuffer 80 (Z.lor BufferUsage.UNIFORM BufferUsage.COPY_DST)
        "Triangle uniform buffer" g in
    let '(bindGroupLayout, g) :=
      createBindGroupLayout
        [uniform_entry 0 (Z.lor ShaderStage.VERTEX ShaderStage.FRAGMENT)] g in
    let '(bg, g) :=
      createBindGroup {| bg_layout := bindGroupLayout;
                         bg_entries := [(0, BufferBinding ub)] |} g in
    let '(pipelineLayout, g) := createPipelineLayout [bindGroupLayout] g in
    let '(pl, g) :=
      createRenderPipeline
        {| pl_label := "Triangle pipeline";
           pl_layout := pipelineLayout;
           pl_vertex_module := vertexShaderModule;
           pl_vertex_buffers :=
             [ {| arrayStride := 16;
                  vb_attributes :=
                    [ {| shaderLocation := 0; attr_offset := 0;
                         attr_format := "float32x4" |} ] |} ];
           pl_fragment_module := fragmentShaderModule;
           pl_target_format := presentationFormat;
           pl_topology := "triangle-list";
           pl_cullMode := None;
           pl_depthStencil := Some depth24plus_less |} g in
    (Ok tt,
     {| resources := resources self; vertices := vertices self;
        vertexBuffer := Some vb; uniformBuffer := Some ub;
        bindGroup := Some bg; pipeline := Some pl;
        rotation := rotation self |},
     g)
  end.

(** [update(canvas)]; [hex] is [guiControls.controls.color]. *)
Definition update (hex : string) (canvas : Canvas) (self : t) (g : Store) : t * Store :=
  let rotation' := S (rotation self) in
  let g := writeBuffer_field (uniformBuffer self) 0
             (TriangleMvp rotation' (canvas_width canvas) (canvas_height canvas)) g in
  let g := writeBuffer_field (uniformBuffer self) 64 (ColorOfHex hex) g in
  ({| resources := resources self; vertices := vertices self;
      vertexBuffer := vertexBuffer self; uniformBuffer := uniformBuffer self;
      bindGroup := bindGroup self; pipeline := pipeline self;
      rotation := rotation' |}, g).

(** [render(renderPass)]: the commands it records, in order. *)
Definition render (self : t) : list Command :=
  [ SetPipeline (pipeline self);
    SetBindGroup 0 (bindGroup self);
    SetVertexBuffer 0 (vertexBuffer self);
    Draw (of_nat 3) ].

(** [resize(newWidth, newHeight, presentationFormat)] has an empty body. *)
Definition resize (newWidth newHeight : Z) (presentationFormat : string)
    (self : t) : t := self.

End Triangle.

(* ------------------------------------------------------------------- *)
(** *** ModelRenderer *)
Module Model.

Record t : Type := {
  resources : handle;
  modelUrl : string;
  modelData : option MeshData;
  vertexBuffer : option handle;
  indexBuffer : option handle;
  vertexCount : number;
  indexCount : nat;
  texture : option handle;
  sampler : option handle;
  uniformBuffer : option handle;
  bindGroup : option handle;
  pipeline : option handle;
  rotation : nat;                (* number of [+= 0.01] steps taken *)
  isInitialized : bool
}.

Definition constructor (res : handle) (url : string) : t :=
  {| resources := res; modelUrl := url; modelData := None;
     vertexBuffer := None; indexBuffer := None;
     vertexCount := of_nat 0; indexCount := 0;
     texture := None; sampler := None;
     uniformBuffer := None; bindGroup := None; pipeline := None;
     rotation := 0; isInitialized := false |}.

(** What the awaited calls of [initialize] resolve to. *)
Record Env : Type := {
  loadModel : string -> result Document;
  platform : Platform;
  fetch : ShaderFetch
}.

(** The body of the interleaving loop for one [i]. *)
Definition interleave_step (md : MeshData) (vertexData : list f32) (i : nat)
    : list f32 :=
  let posIndex := (i * 3)%nat in
  let uvIndex := (i * 2)%nat in
  let vertexIndex := (i * 5)%nat in
  let v := store vertexData vertexIndex (load_f32 (positions md) posIndex) in
  let v := store v (vertexIndex + 1)%nat (load_f32 (positions md) (posIndex + 1)%nat) in
  let v := store v (vertexIndex + 2)%nat (load_f32 (positions md) (posIndex + 2)%nat) in
  let v := store v (vertexIndex + 3)%nat (load_f32 (texcoords md) uvIndex) in
  store v (vertexIndex + 4)%nat (load_f32 (texcoords md) (uvIndex + 1)%nat).

(** How many times the body of [for (let i = 0; i < n; i++)] runs: the
    number of [i = 0, 1, ...] with [lt_number i n]. *)
Definition loop_count (n : number) : nat := Z.to_nat (Qceiling n).

(** [vertexData] after the loop. *)
Definition interleave (md : MeshData) : list f32 :=
  fold_left (interleave_step md)
    (seq 0 (loop_count (Extract.vertexCount md)))
    (new_Float32Array (ToIndex (mul (Extract.vertexCount md) (of_nat 5)))).

Definition index_payload (d : IndexData) : Payload :=
  match d with
  | Uint16Array l => Uint16s l
  | Uint32Array l => Uint32s l
  end.

Definition model_sampler : GPUSampler :=
  {| magFilter := "linear"; minFilter := "linear";
     addressModeU := Some "repeat"; addressModeV := Some "repeat" |}.

Definition initialize (env : Env) (presentationFormat : string)
    (self : t) (g : Store) : result unit * t * Store :=
  match loadModel env (modelUrl self) with
  | Throw m => (Throw m, self, g)
  | Ok document =>
    match extractMesh document with
    | Throw m => (Throw m, self, g)
    | Ok md =>
      let self1 :=
        {| resources := resources self; modelUrl := modelUrl self;
           modelData := Some md;
           vertexBuffer := vertexBuffer self; indexBuffer := indexBuffer self;
           vertexCount := vertexCount self; indexCount := indexCount self;
           texture := texture self; sampler := sampler self;
           uniformBuffer := uniformBuffer self; bindGroup := bindGroup self;
           pipeline := pipeline self; rotation := rotation self;
           isInitialized := isInitialized self |} in
      match loadTexture (platform env) document g with
      | (Throw m, g) => (Throw m, self1, g)
      | (Ok tex, g) =>
        let '(smp, g) := createSampler model_sampler g in
        let vertexData := interleave md in
        let '(vb, g) :=
          createBuffer (4 * Z.of_nat (length vertexData))
            (Z.lor BufferUsage.VERTEX BufferUsage.COPY_DST) "Model vertices" g in
        let g := writeBuffer vb 0 (Floats vertexData) g in
        let '(ib, icount, g) :=
          match indices md with
          | Some d =>
            let '(b, g) :=
              createBuffer (byteLength d)
                (Z.lor BufferUsage.INDEX BufferUsage.COPY_DST) "Model indices" g in
            (Some b, Extract.indexCount md, writeBuffer b 0 (index_payload d) g)
          | None => (indexBuffer self, indexCount self, g)
          end in
        let self2 :=
          {| resources := resources self; modelUrl := modelUrl self;
             modelData := Some md;
             vertexBuffer := Some vb; indexBuffer := ib;
             vertexCount := Extract.vertexCount md; indexCount := icount;
             texture := Some tex; sampler := Some smp;
             uniformBuffer := uniformBuffer self; bindGroup := bindGroup self;
             pipeline := pipeline self; rotation := rotation self;
             isInitialized := isInitialized self |} in
        match load_both (fetch env) "./shaders/model.vert" "./shaders/model.frag" with
        | Throw m => (Throw m, self2, g)
        | Ok (vertexShaderCode, fragmentShaderCode) =>
          let '(vertexShaderModule, g) :=
            createShaderModule vertexShaderCode "Model Vertex Shader" g in
          let '(fragmentShaderModule, g) :=
            createShaderModule fragmentShaderCode "Model Fragment Shader" g in
          let '(ub, g) :=
            createBuffer 64 (Z.lor BufferUsage.UNIFORM BufferUsage.COPY_DST)
              "Model uniform buffer" g in
          let '(bindGroupLayout, g) :=
            createBindGroupLayout
              [ uniform_entry 0 ShaderStage.VERTEX;
                sampler_entry 1 ShaderStage.FRAGMENT;
                texture_entry 2 ShaderStage.FRAGMENT ] g in
          let '(bg, g) :=
            createBindGroup
              {| bg_layout := bindGroupLayout;
                 bg_entries := [ (0, BufferBinding ub);
                                 (1, SamplerBinding smp);
                                 (2, TextureViewBinding tex) ] |} g in
          let '(pipelineLayout, g) := createPipelineLayout [bindGroupLayout] g in
          let '(pl, g) :=
            createRenderPipeline
              {| pl_label := "Model pipeline";
                 pl_layout := pipelineLayout;
                 pl_vertex_module := vertexShaderModule;
                 pl_vertex_buffers :=
                   [ {| arrayStride := 20;
                        vb_attributes :=
                          [ {| shaderLocation := 0; attr_offset := 0;
                               attr_format := "float32x3" |};
                            {| shaderLocation := 1; attr_offset := 12;
                               attr_format := "float32x2" |} ] |} ];
                 pl_fragment_module := fragmentShaderModule;
                 pl_target_format := presentationFormat;
                 pl_topology := "triangle-list";
                 pl_cullMode := Some "back";
                 pl_depthStencil := Some depth24plus_less |} g in
          (Ok tt,
           {| resources := resources self; modelUrl := modelUrl self;
              modelData := Some md;
              vertexBuffer := Some vb; indexBuffer := ib;
              vertexCount := Extract.vertexCount md; indexCount := icount;
              texture := Some tex; sampler := Some smp;
              uniformBuffer := Some ub; bindGroup := Some bg;
              pipeline := Some pl; rotation := rotation self;
              isInitialized := true |},
           g)
        end
      end
    end
  end.

Definition update (canvas : Canvas) (self : t) (g : Store) : t * Store :=
  let rotation' := S (rotation self) in
  let g := writeBuffer_field (uniformBuffer self) 0
             (ModelMvp rotation' (canvas_width canvas) (canvas_height canvas)) g in
  ({| resources := resources self; modelUrl := modelUrl self;
      modelData := modelData self;
      vertexBuffer := vertexBuffer self; indexBuffer := indexBuffer self;
      vertexCount := vertexCount self; indexCount := indexCount self;
      texture := texture self; sampler := sampler self;
      uniformBuffer := uniformBuffer self; bindGroup := bindGroup self;
      pipeline := pipeline self; rotation := rotation';
      isInitialized := isInitialized self |}, g).

(** [this.modelData.indices instanceof Uint16Array ? 'uint16' : 'uint32'] *)
Definition index_format (md : MeshData) : IndexFormat :=
  match indices md with
  | Some (Uint16Array _) => uint16
  | _ => uint32
  end.

Definition null_modelData : string :=
  "Cannot read properties of null (reading 'indices')".

(** [render(renderPass)]: the commands it records, or the [TypeError]
    of reading [this.modelData.indices] while [modelData] is [null]. *)
Definition render (self : t) : result (list Command) :=
  let head := [ SetPipeline (pipeline self);
                SetBindGroup 0 (bindGroup self);
                SetVertexBuffer 0 (vertexBuffer self) ] in
  match indexBuffer self with
  | Some ib =>
    match modelData self with
    | Some md =>
      Ok (head ++ [ SetIndexBuffer ib (index_format md);
                    DrawIndexed (indexCount self) ])
    | None => Throw null_modelData
    end
  | None => Ok (head ++ [ Draw (vertexCount self) ])
  end.

Definition resize (newWidth newHeight : Z) (presentationFormat : string)
    (self : t) : t := self.

End Model.

(* ------------------------------------------------------------------- *)
(** *** PostProcessingRenderer *)
Module Post.

Record t : Type := {
  resources : handle;
  sampler : option handle;
  bindGroupLayout : option handle;
  bindGroup : option handle;
  pipeline : option handle;
  sceneColorTexture : option handle;
  isInitialized : bool
}.

Definition constructor (res : handle) : t :=
  {| resources := res; sampler := None; bindGroupLayout := None;
     bindGroup := None; pipeline := None; sceneColorTexture := None;
     isInitialized := false |}.

Definition post_sampler : GPUSampler :=
  {| magFilter := "linear"; minFilter := "linear";
     addressModeU := None; addressModeV := None |}.

(** The descriptor handed to [createRenderPipeline]; [buffers: []] because
    the vertex shader works from [@builtin(vertex_index)] alone. *)
Definition pipeline_descriptor (pipelineLayout vertexModule fragmentModule : handle)
    (presentationFormat : string) : GPURenderPipeline :=
  {| pl_label := "Post-processing pipeline";
     pl_layout := pipelineLayout;
     pl_vertex_module := vertexModule;
     pl_vertex_buffers := [];
     pl_fragment_module := fragmentModule;
     pl_target_format := presentationFormat;
     pl_topology := "triangle-list";
     pl_cullMode := None;
     pl_depthStencil := None |}.

Definition scene_texture_required : string :=
  "Scene color texture is required for post-processing".

Definition initialize (fetch : ShaderFetch) (presentationFormat : string)
    (scene : option handle) (self : t) (g : Store) : result unit * t * Store :=
  match scene with
  | None => (Throw scene_texture_required, self, g)
  | Some sct =>
    let self1 :=
      {| resources := resources self; sampler := sampler self;
         bindGroupLayout := bindGroupLayout self; bindGroup := bindGroup self;
         pipeline := pipeline self; sceneColorTexture := Some sct;
         isInitialized := isInitialized self |} in
    match load_both fetch "./shaders/fullscreen.vert" "./shaders/post.frag" with
    | Throw m => (Throw m, self1, g)
    | Ok (fullscreenVertexCode, postFragmentCode) =>
      let '(fullscreenVertexModule, g) :=
        createShaderModule fullscreenVertexCode "Fullscreen Vertex Shader" g in
      let '(postFragmentModule, g) :=
        createShaderModule postFragmentCode "Post-processing Fragment Shader" g in
      let '(smp, g) := createSampler post_sampler g in
      let '(layout, g) :=
        createBindGroupLayout
          [ sampler_entry 0 ShaderStage.FRAGMENT;
            texture_entry 1 ShaderStage.FRAGMENT ] g in
      let '(bg, g) :=
        createBindGroup
          {| bg_layout := layout;
             bg_entries := [ (0, SamplerBinding smp);
                             (1, TextureViewBinding sct) ] |} g in
      let '(pipelineLayout, g) := createPipelineLayout [layout] g in
      let '(pl, g) :=
        createRenderPipeline
          (pipeline_descriptor pipelineLayout fullscreenVertexModule
             postFragmentModule presentationFormat) g in
      (Ok tt,
       {| resources := resources self; sampler := Some smp;
          bindGroupLayout := Some layout; bindGroup := Some bg;
          pipeline := Some pl; sceneColorTexture := Some sct;
          isInitialized := true |},
       g)
    end
  end.

(** The pass [render(encoder, currentTexture)] records when
    [currentTexture] is available. *)
Definition post_pass (self : t) : RenderPass :=
  {| rp_label := "Post-processing render pass";
     rp_color := CanvasView;
     rp_depth := None;
     rp_commands := [ SetPipeline (pipeline self);
                      SetBindGroup 0 (bindGroup self);
                      Draw (of_nat 6) ] |}.

Definition render (self : t) (currentTexture : bool) (encoder : CommandBuffer)
    : CommandBuffer :=
  if currentTexture then encoder ++ [post_pass self] else encoder.

Definition new_texture_required : string := "New scene color texture is required".
Definition layout_not_initialized : string := "Bind group layout not initialized".
Definition sampler_not_initialized : string := "Sampler not initialized".

Definition updateSceneTexture (newSceneColorTexture : option handle)
    (self : t) (g : Store) : result unit * t * Store :=
  match newSceneColorTexture with
  | None => (Throw new_texture_required, self, g)
  | Some sct =>
    match bindGroupLayout self with
    | None => (Throw layout_not_initialized, self, g)
    | Some layout =>
      match sampler self with
      | None => (Throw sampler_not_initialized, self, g)
      | Some smp =>
        let '(bg, g) :=
          createBindGroup
            {| bg_layout := layout;
               bg_entries := [ (0, SamplerBinding smp);
                               (1, TextureViewBinding sct) ] |} g in
        (Ok tt,
         {| resources := resources self; sampler := sampler self;
            bindGroupLayout := bindGroupLayout self; bindGroup := Some bg;
            pipeline := pipeline self; sceneColorTexture := Some sct;
            isInitialized := isInitialized self |},
         g)
      end
    end
  end.

Definition resize (newSceneColorTexture : option handle) (self : t) (g : Store)
    : result unit * t * Store :=
  updateSceneTexture newSceneColorTexture self g.

End Post.

End Providers.

(* ===================================================================== *)
(** ** hooks/useWebGPU: the orchestrator                                  *)
(* ===================================================================== *)
Module Hook.
Import Gpu Providers.

(** *** The hook's surroundings *)

(** What the browser reports: [navigator.gpu] present,
    [window.devicePixelRatio], [getPreferredCanvasFormat()] and the colour
    held by the GUI singleton. *)
Record Browser : Type := {
  has_gpu : bool;
  devicePixelRatio : number;
  preferredCanvasFormat : string;
  guiColor : string
}.

(** [Math.floor(width * dpr)] *)
Definition scaled (br : Browser) (x : Z) : Z :=
  Math_floor (mul (inject_Z x) (devicePixelRatio br)).

(** A [WebGPUResources] object together with the two properties the hook
    attaches to it. *)
Record Resources : Type := {
  device : handle;
  sceneColorTexture : option handle;
  sceneDepthTexture : option handle
}.

(** *** State shared by every run of the effect *)

Record Refs : Type := {
  deviceRef : option handle;
  contextRef : option unit;
  animationIdRef : option nat;
  resourcesRef : option handle;
  triangleRendererRef : option handle;
  modelRendererRef : option handle;
  postRendererRef : option handle;
  generationRef : nat;
  aliveRef : bool
}.

(** The objects the refs and the closures point to. *)
Record Heap : Type := {
  gpu : Store;
  resourcesObjs : list Resources;
  triangles : list Triangle.t;
  models : list Model.t;
  posts : list Post.t;
  deviceCount : nat
}.

(** The canvas element: whether [canvasRef.current] holds it, its backing
    size, and the configuration of its WebGPU context. *)
Record Dom : Type := {
  mounted : bool;
  canvas : Canvas;
  configuration : option (handle * string)
}.

(** [useState] cells. *)
Record ReactState : Type := {
  error : option string;
  isInitialized : bool
}.

(** *** Suspended runs of [initWebGPU] *)

(** The [const]s of [initWebGPU] that are live across its later awaits. *)
Record Locals : Type := {
  l_device : handle;
  l_presentationFormat : string;
  l_resources : handle;
  l_sceneColorTexture : handle;
  l_sceneDepthTexture : handle;
  l_triangleRenderer : handle
}.

(** The [await] a run is suspended at. *)
Inductive Pc : Type :=
| AtAdapter                                        (* requestAdapter() *)
| AtDevice                                         (* adapter.requestDevice() *)
| AtTriangle (l : Locals)                          (* triangleRenderer.initialize *)
| AtModel (l : Locals) (modelRenderer : handle)    (* modelRenderer.initialize *)
| AtPost (l : Locals) (modelRenderer postRenderer : handle)  (* postRenderer.initialize *)
| Finished.

(** One call [initWebGPU(gen)] with the [width] and [height] its closure
    captured. *)
Record Task : Type := {
  t_gen : nat;
  t_width : Z;
  t_height : Z;
  t_pc : Pc
}.

Record Sched : Type := {
  tasks : list Task;
  frames : list (nat * nat);   (* pending animation frames: (id, gen of [render]) *)
  nextFrameId : nat
}.

(** *** What leaves the hook *)

(** The shared locations [initWebGPU] installs resources into. *)
Inductive Slot : Type :=
| SlotDevice | SlotContext | SlotCanvasSize | SlotConfiguration
| SlotResources | SlotTriangleRenderer | SlotModelRenderer
| SlotPostRenderer | SlotSceneTextures.

(** Bookkeeping for the ordering properties: each assignment made by the
    code of generation [by_gen] is recorded with the value of
    [generationRef.current] and [aliveRef.current] at that moment. *)
Record Install : Type := {
  slot : Slot;
  by_gen : nat;
  current_gen : nat;
  alive_then : bool
}.

Record Output : Type := {
  submitted : list (nat * CommandBuffer);   (* [queue.submit], with the gen of [render] *)
  encoders : nat;                           (* command encoders created *)
  installs : list Install                   (* newest first *)
}.

Record World : Type := {
  state : ReactState;
  refs : Refs;
  dom : Dom;
  heap : Heap;
  sched : Sched;
  out : Output
}.

(** *** Field updates *)

Definition upd_state (f : ReactState -> ReactState) (w : World) : World :=
  {| state := f (state w); refs := refs w; dom := dom w; heap := heap w;
     sched := sched w; out := out w |}.
Definition upd_refs (f : Refs -> Refs) (w : World) : World :=
  {| state := state w; refs := f (refs w); dom := dom w; heap := heap w;
     sched := sched w; out := out w |}.
Definition upd_dom (f : Dom -> Dom) (w : World) : World :=
  {| state := state w; refs := refs w; dom := f (dom w); heap := heap w;
     sched := sched w; out := out w |}.
Definition upd_heap (f : Heap -> Heap) (w : World) : World :=
  {| state := state w; refs := refs w; dom := dom w; heap := f (heap w);
     sched := sched w; out := out w |}.
Definition upd_sched (f : Sched -> Sched) (w : World) : World :=
  {| state := state w; refs := refs w; dom := dom w; heap := heap w;
     sched := f (sched w); out := out w |}.
Definition upd_out (f : Output -> Output) (w : World) : World :=
  {| state := state w; refs := refs w; dom := dom w; heap := heap w;
     sched := sched w; out := f (out w) |}.

Definition put_deviceRef (v : option handle) (r : Refs) : Refs :=
  {| deviceRef := v; contextRef := contextRef r; animationIdRef := animationIdRef r;
     resourcesRef := resourcesRef r; triangleRendererRef := triangleRendererRef r;
     modelRendererRef := modelRendererRef r; postRendererRef := postRendererRef r;
     generationRef := generationRef r; aliveRef := aliveRef r |}.
Definition put_contextRef (v : option unit) (r : Refs) : Refs :=
  {| deviceRef := deviceRef r; contextRef := v; animationIdRef := animationIdRef r;
     resourcesRef := resourcesRef r; triangleRendererRef := triangleRendererRef r;
     modelRendererRef := modelRendererRef r; postRendererRef := postRendererRef r;
     generationRef := generationRef r; aliveRef := aliveRef r |}.
Definition put_animationIdRef (v : option nat) (r : Refs) : Refs :=
  {| deviceRef := deviceRef r; contextRef := contextRef r; animationIdRef := v;
     resourcesRef := resourcesRef r; triangleRendererRef := triangleRendererRef r;
     modelRendererRef := modelRendererRef r; postRendererRef := postRendererRef r;
     generationRef := generationRef r; aliveRef := aliveRef r |}.
Definition put_resourcesRef (v : option handle) (r : Refs) : Refs :=
  {| deviceRef := deviceRef r; contextRef := contextRef r;
     animationIdRef := animationIdRef r;
     resourcesRef := v; triangleRendererRef := triangleRendererRef r;
     modelRendererRef := modelRendererRef r; postRendererRef := postRendererRef r;
     generationRef := generationRef r; aliveRef := aliveRef r |}.
Definition put_triangleRendererRef (v : option handle) (r : Refs) : Refs :=
  {| deviceRef := deviceRef r; contextRef := contextRef r;
     animationIdRef := animationIdRef r;
     resourcesRef := resourcesRef r; triangleRendererRef := v;
     modelRendererRef := modelRendererRef r; postRendererRef := postRendererRef r;
     generationRef := generationRef r; aliveRef := aliveRef r |}.
Definition put_modelRendererRef (v : option handle) (r : Refs) : Refs :=
  {| deviceRef := deviceRef r; contextRef := contextRef r;
     animationIdRef := animationIdRef r;
     resourcesRef := resourcesRef r; triangleRendererRef := triangleRendererRef r;
     modelRendererRef := v; postRendererRef := postRendererRef r;
     generationRef := generationRef r; aliveRef := aliveRef r |}.
Definition put_postRendererRef (v : option handle) (r : Refs) : Refs :=
  {| deviceRef := deviceRef r; contextRef := contextRef r;
     animationIdRef := animationIdRef r;
     resourcesRef := resourcesRef r; triangleRendererRef := triangleRendererRef r;
     modelRendererRef := modelRendererRef r; postRendererRef := v;
     generationRef := generationRef r; aliveRef := aliveRef r |}.
Definition put_generationRef (v : nat) (r : Refs) : Refs :=
  {| deviceRef := deviceRef r; contextRef := contextRef r;
     animationIdRef := animationIdRef r;
     resourcesRef := resourcesRef r; triangleRendererRef := triangleRendererRef r;
     modelRendererRef := modelRendererRef r; postRendererRef := postRendererRef r;
     generationRef := v; aliveRef := aliveRef r |}.
Definition put_aliveRef (v : bool) (r : Refs) : Refs :=
  {| deviceRef := deviceRef r; contextRef := contextRef r;
     animationIdRef := animationIdRef r;
     resourcesRef := resourcesRef r; triangleRendererRef := triangleRendererRef r;
     modelRendererRef := modelRendererRef r; postRendererRef := postRendererRef r;
     generationRef := generationRef r; aliveRef := v |}.

Definition put_gpu (g : Store) (h : Heap) : Heap :=
  {| gpu := g; resourcesObjs := resourcesObjs h; triangles := triangles h;
     models := models h; posts := posts h; deviceCount := deviceCount h |}.
Definition put_resourcesObjs (v : list Resources) (h : Heap) : Heap :=
  {| gpu := gpu h; resourcesObjs := v; triangles := triangles h;
     models := models h; posts := posts h; deviceCount := deviceCount h |}.
Definition put_triangles (v : list Triangle.t) (h : Heap) : Heap :=
  {| gpu := gpu h; resourcesObjs := resourcesObjs h; triangles := v;
     models := models h; posts := posts h; deviceCount := deviceCount h |}.
Definition put_models (v : list Model.t) (h : Heap) : Heap :=
  {| gpu := gpu h; resourcesObjs := resourcesObjs h; triangles := triangles h;
     models := v; posts := posts h; deviceCount := deviceCount h |}.
Definition put_posts (v : list Post.t) (h : Heap) : Heap :=
  {| gpu := gpu h; resourcesObjs := resourcesObjs h; triangles := triangles h;
     models := models h; posts := v; deviceCount := deviceCount h |}.
Definition put_deviceCount (v : nat) (h : Heap) : Heap :=
  {| gpu := gpu h; resourcesObjs := resourcesObjs h; triangles := triangles h;
     models := models h; posts := posts h; deviceCount := v |}.

Definition put_canvas (c : Canvas) (d : Dom) : Dom :=
  {| mounted := mounted d; canvas := c; configuration := configuration d |}.
Definition put_configuration (c : option (handle * string)) (d : Dom) : Dom :=
  {| mounted := mounted d; canvas := canvas d; configuration := c |}.

Definition put_error (e : option string) (s : ReactState) : ReactState :=
  {| error := e; isInitialized := isInitialized s |}.
Definition put_isInitialized (b : bool) (s : ReactState) : ReactState :=
  {| error := error s; isInitialized := b |}.

Definition put_tasks (v : list Task) (s : Sched) : Sched :=
  {| tasks := v; frames := frames s; nextFrameId := nextFrameId s |}.
Definition put_frames (v : list (nat * nat)) (s : Sched) : Sched :=
  {| tasks := tasks s; frames := v; nextFrameId := nextFrameId s |}.
Definition put_nextFrameId (v : nat) (s : Sched) : Sched :=
  {| tasks := tasks s; frames := frames s; nextFrameId := v |}.

Definition put_submitted (v : list (nat * CommandBuffer)) (o : Output) : Output :=
  {| submitted := v; encoders := encoders o; installs := installs o |}.
Definition put_encoders (v : nat) (o : Output) : Output :=
  {| submitted := submitted o; encoders := v; installs := installs o |}.
Definition put_installs (v : list Install) (o : Output) : Output :=
  {| submitted := submitted o; encoders := encoders o; installs := v |}.

(** *** What the awaited calls answer *)

(** The operations of one frame that the platform may fail; an operation
    that fails is taken to have had no effect. *)
Inductive FrameStep : Type :=
| UpdateTriangle | UpdateModel | CreateCommandEncoder
| CreateColorView | CreateDepthView | BeginRenderPass
| RenderTriangle | RenderModel | EndPass
| GetCurrentTexture | RenderPost | FinishEncoder | Submit.

Record FrameEnv : Type := {
  throws : FrameStep -> option string;   (* the message of the error thrown there *)
  currentTexture : bool                  (* [context.getCurrentTexture()] is not null *)
}.

Record Answers : Type := {
  requestAdapter : result bool;          (* [Ok false]: resolved with [null] *)
  requestDevice : result unit;
  getContext : bool;                     (* [canvas.getContext('webgpu')] is not null *)
  shaders : ShaderFetch;
  loadModel : string -> result Document;
  platform : Extract.Platform;
  first_frame : FrameEnv                 (* for the [render()] call ending [initWebGPU] *)
}.

Definition model_env (ans : Answers) : Model.Env :=
  {| Model.loadModel := loadModel ans;
     Model.platform := platform ans;
     Model.fetch := shaders ans |}.

(** *** Primitive steps *)

(** Records that the code of generation [gen] assigns slot [s] now. *)
Definition note (s : Slot) (gen : nat) (w : World) : World :=
  upd_out (fun o =>
    put_installs ({| slot := s; by_gen := gen;
                     current_gen := generationRef (refs w);
                     alive_then := aliveRef (refs w) |} :: installs o) o) w.

(** [setError(message)] *)
Definition setError (message : string) (w : World) : World :=
  upd_state (put_error (Some message)) w.

Definition with_pc (pc : Pc) (t : Task) : Task :=
  {| t_gen := t_gen t; t_width := t_width t; t_height := t_height t; t_pc := pc |}.

Definition set_pc (gen : nat) (pc : Pc) (w : World) : World :=
  upd_sched (fun s =>
    put_tasks (map (fun t => if (t_gen t =? gen)%nat then with_pc pc t else t)
                   (tasks s)) s) w.

Definition spawn (gen : nat) (width height : Z) (pc : Pc) (w : World) : World :=
  upd_sched (fun s =>
    put_tasks (tasks s ++ [ {| t_gen := gen; t_width := width;
                               t_height := height; t_pc := pc |} ]) s) w.

Definition find_task (gen : nat) (w : World) : option Task :=
  find (fun t => (t_gen t =? gen)%nat) (tasks (sched w)).

(** [requestAnimationFrame(render)] for the [render] of [gen], stored in
    [animationIdRef.current]. *)
Definition schedule (gen : nat) (w : World) : World :=
  let id := nextFrameId (sched w) in
  let w := upd_sched (fun s => put_nextFrameId (S id)
                                 (put_frames (frames s ++ [(id, gen)]) s)) w in
  upd_refs (put_animationIdRef (Some id)) w.

(** [cancelAnimationFrame(id)] *)
Definition cancelAnimationFrame (id : nat) (w : World) : World :=
  upd_sched (fun s =>
    put_frames (filter (fun f => fst f <> id) (frames s)) s) w.

(** [resources.createRenderTexture(width, height, format, label)] *)
Definition createRenderTexture (width height : Z) (format label : string)
    (g : Store) : handle * Store :=
  createTexture width height format
    (Z.lor TextureUsage.RENDER_ATTACHMENT TextureUsage.TEXTURE_BINDING)
    (Some label) g.

(** [resources.createTexture({size, format: 'depth24plus', ...})] *)
Definition createSceneDepth (width height : Z) (g : Store) : handle * Store :=
  createTexture width height "depth24plus" TextureUsage.RENDER_ATTACHMENT
    (Some "Combined scene depth texture") g.

(** [!aliveRef.current || gen !== generationRef.current] *)
Definition superseded (gen : nat) (w : World) : bool :=
  negb (aliveRef (refs w)) || negb (gen =? generationRef (refs w))%nat.

(** The [catch (err)] of [initWebGPU]. *)
Definition init_failed (gen : nat) (message : string) (w : World) : World :=
  set_pc gen Finished (setError message w).

Definition no_webgpu : string := "WebGPU is not supported in this browser".
Definition no_adapter : string := "Could not request WebGPU adapter".
Definition no_context : string := "Could not get WebGPU context".
Definition null_property : string := "Cannot set properties of null".
Definition undefined_createView : string :=
  "Cannot read properties of undefined (reading 'createView')".
Definition model_url : string := "./models/DamagedHelmet.glb".

(** *** The frame callback *)

(** Code that reads and writes the world and may throw; what was done
    before a throw stays done. *)
Definition M (A : Type) : Type := World -> result A * World.

Definition ret {A} (a : A) : M A := fun w => (Ok a, w).
Definition raise {A} (message : string) : M A := fun w => (Throw message, w).
Definition mbind {A B} (m : M A) (k : A -> M B) : M B :=
  fun w =>
    match m w with
    | (Ok a, w') => k a w'
    | (Throw e, w') => (Throw e, w')
    end.
Definition modify (f : World -> World) : M unit := fun w => (Ok tt, f w).
Definition gets {A} (f : World -> A) : M A := fun w => (Ok (f w), w).

Notation "x <- m ;; k" := (mbind m (fun x => k))
  (at level 100, m at next level, right associativity).
Notation "m ;;; k" := (mbind m (fun _ => k))
  (at level 100, right associativity).

(** The platform's verdict on one operation of the frame. *)
Definition attempt (fenv : FrameEnv) (s : FrameStep) : M unit :=
  match throws fenv s with
  | Some message => raise message
  | None => ret tt
  end.

(** Reading a property of [null] or [undefined] throws. *)
Definition required {A} (o : option A) (message : string) : M A :=
  match o with
  | Some a => ret a
  | None => raise message
  end.

Definition lift {A} (r : result A) : M A :=
  match r with
  | Ok a => ret a
  | Throw m => raise m
  end.

Definition update_triangle (br : Browser) (th : handle) (w : World) : World :=
  match triangles (heap w) !! th with
  | Some tri =>
    let '(tri', g') := Triangle.update (guiColor br) (canvas (dom w)) tri (gpu (heap w)) in
    upd_heap (fun h => put_gpu g' (put_triangles (<[th := tri']> (triangles h)) h)) w
  | None => w
  end.

Definition update_model (mh : handle) (w : World) : World :=
  match models (heap w) !! mh with
  | Some mo =>
    let '(mo', g') := Model.update (canvas (dom w)) mo (gpu (heap w)) in
    upd_heap (fun h => put_gpu g' (put_models (<[mh := mo']> (models h)) h)) w
  | None => w
  end.

Definition count_encoder (w : World) : World :=
  upd_out (fun o => put_encoders (S (encoders o)) o) w.

(** [device.queue.submit([commandBuffer])] by the [render] of [gen] *)
Definition submit (gen : nat) (cb : CommandBuffer) (w : World) : World :=
  upd_out (fun o => put_submitted ((gen, cb) :: submitted o) o) w.

Definition scene_pass (color depth : handle) (cmds : list Command) : RenderPass :=
  {| rp_label := "Combined scene render pass";
     rp_color := OffscreenView color;
     rp_depth := Some depth;
     rp_commands := cmds |}.

Definition dangling : string := "Cannot read properties of undefined".

(** The statements of the [try] block once the four objects are known
    to be there.  The result is [true] when control leaves the block at
    its end, [false] when it leaves through [return]. *)
Definition frame_record (br : Browser) (fenv : FrameEnv) (gen : nat)
    (rh th mh ph : handle) : M bool :=
  attempt fenv UpdateTriangle ;;;
  modify (update_triangle br th) ;;;
  attempt fenv UpdateModel ;;;
  modify (update_model mh) ;;;
  attempt fenv CreateCommandEncoder ;;;
  modify count_encoder ;;;
  res <- (o <- gets (fun w => resourcesObjs (heap w) !! rh) ;; required o dangling) ;;
  color <- required (sceneColorTexture res) undefined_createView ;;
  attempt fenv CreateColorView ;;;
  depth <- required (sceneDepthTexture res) undefined_createView ;;
  attempt fenv CreateDepthView ;;;
  attempt fenv BeginRenderPass ;;;
  attempt fenv RenderTriangle ;;;
  tri <- (o <- gets (fun w => triangles (heap w) !! th) ;; required o dangling) ;;
  attempt fenv RenderModel ;;;
  mo <- (o <- gets (fun w => models (heap w) !! mh) ;; required o dangling) ;;
  modelCmds <- lift (Model.render mo) ;;
  attempt fenv EndPass ;;;
  attempt fenv GetCurrentTexture ;;;
  if negb (currentTexture fenv) then
    modify (schedule gen) ;;;
    ret false
  else
    attempt fenv RenderPost ;;;
    po <- (o <- gets (fun w => posts (heap w) !! ph) ;; required o dangling) ;;
    attempt fenv FinishEncoder ;;;
    attempt fenv Submit ;;;
    modify (submit gen
              (Post.render po true
                 [scene_pass color depth (Triangle.render tri ++ modelCmds)])) ;;;
    ret true.

(** The [try] block: the four [const]s read from the refs, the
    [if (!resources || ...) return], then the statements above. *)
Definition frame_try (br : Browser) (fenv : FrameEnv) (gen : nat) : M bool :=
  fun w =>
    match resourcesRef (refs w), triangleRendererRef (refs w),
          modelRendererRef (refs w), postRendererRef (refs w) with
    | Some rh, Some th, Some mh, Some ph => frame_record br fenv gen rh th mh ph w
    | _, _, _, _ => (Ok false, w)
    end.

(** The second guard of [render]: some ref is still [null]. *)
Definition refs_missing (w : World) : bool :=
  negb (bool_decide (is_Some (deviceRef (refs w))))
  || negb (bool_decide (is_Some (contextRef (refs w))))
  || negb (bool_decide (is_Some (triangleRendererRef (refs w))))
  || negb (bool_decide (is_Some (modelRendererRef (refs w))))
  || negb (bool_decide (is_Some (postRendererRef (refs w)))).

Definition render_error (message : string) : string :=
  String.append "Render error: " message.

(** [render], the closure created by [initWebGPU(gen)]. *)
Definition render (br : Browser) (fenv : FrameEnv) (gen : nat) (w : World) : World :=
  if superseded gen w then w
  else if refs_missing w then w
  else
    match frame_try br fenv gen w with
    | (Throw message, w') => setError (render_error message) w'
    | (Ok false, w') => w'
    | (Ok true, w') => schedule gen w'
    end.

(** *** initWebGPU, cut at its awaits *)

(** One function per stretch of [initWebGPU] between two suspension points.
    The awaited [initialize] of a provider is run in one piece when its
    promise settles, just before the continuation: its inner awaits
    (shader fetches, model load, image decode) are answered together, and
    the states the provider object passes through meanwhile are not
    modelled. *)

(** From the call to the first [await]. *)
Definition initWebGPU_enter (br : Browser) (gen : nat) (width height : Z)
    (w : World) : World :=
  if negb (has_gpu br) then spawn gen width height Finished (setError no_webgpu w)
  else if negb (mounted (dom w)) then spawn gen width height Finished w
  else if (width <=? 0) || (height <=? 0) then spawn gen width height Finished w
  else spawn gen width height AtAdapter w.

(** After [await navigator.gpu.requestAdapter()]. *)
Definition after_adapter (ans : Answers) (gen : nat) (w : World) : World :=
  match requestAdapter ans with
  | Throw m => init_failed gen m w
  | Ok false => init_failed gen no_adapter w
  | Ok true => set_pc gen AtDevice w
  end.

(** After [await adapter.requestDevice()], up to the call of
    [triangleRenderer.initialize]. *)
Definition after_device (br : Browser) (ans : Answers) (gen : nat)
    (width height : Z) (w : World) : World :=
  match requestDevice ans with
  | Throw m => init_failed gen m w
  | Ok _ =>
    let dev := deviceCount (heap w) in
    let w := upd_heap (put_deviceCount (S dev)) w in
    let w := note SlotDevice gen (upd_refs (put_deviceRef (Some dev)) w) in
    if negb (getContext ans) then init_failed gen no_context w
    else
      let w := note SlotContext gen (upd_refs (put_contextRef (Some tt)) w) in
      let cw := scaled br width in
      let ch := scaled br height in
      let w := note SlotCanvasSize gen
                 (upd_dom (put_canvas {| canvas_width := cw; canvas_height := ch |}) w) in
      let presentationFormat := preferredCanvasFormat br in
      let w := note SlotConfiguration gen
                 (upd_dom (put_configuration (Some (dev, presentationFormat))) w) in
      let rh := length (resourcesObjs (heap w)) in
      let w := upd_heap (fun h =>
                 put_resourcesObjs
                   (resourcesObjs h ++ [ {| device := dev; sceneColorTexture := None;
                                            sceneDepthTexture := None |} ]) h) w in
      let w := note SlotResources gen (upd_refs (put_resourcesRef (Some rh)) w) in
      let '(color, g) :=
        createRenderTexture cw ch presentationFormat "Combined scene color texture"
          (gpu (heap w)) in
      let '(depth, g) := createSceneDepth cw ch g in
      let w := upd_heap (put_gpu g) w in
      let th := length (triangles (heap w)) in
      let w := upd_heap (fun h =>
                 put_triangles (triangles h ++ [Triangle.constructor rh]) h) w in
      let w := note SlotTriangleRenderer gen
                 (upd_refs (put_triangleRendererRef (Some th)) w) in
      set_pc gen
        (AtTriangle {| l_device := dev; l_presentationFormat := presentationFormat;
                       l_resources := rh; l_sceneColorTexture := color;
                       l_sceneDepthTexture := depth; l_triangleRenderer := th |}) w
  end.

(** After [await triangleRenderer.initialize(...)]: what [initialize] did
    once its shaders arrived, then the continuation up to the call of
    [modelRenderer.initialize]. *)
Definition after_triangle (ans : Answers) (gen : nat) (l : Locals) (w : World) : World :=
  match triangles (heap w) !! l_triangleRenderer l with
  | None => init_failed gen dangling w
  | Some tri =>
    let '(r, tri', g') :=
      Triangle.initialize (shaders ans) (l_presentationFormat l) tri (gpu (heap w)) in
    let w := upd_heap (fun h =>
               put_gpu g' (put_triangles (<[l_triangleRenderer l := tri']> (triangles h)) h)) w in
    match r with
    | Throw m => init_failed gen m w
    | Ok _ =>
      if superseded gen w then set_pc gen Finished w
      else
        let mh := length (models (heap w)) in
        let w := upd_heap (fun h =>
                   put_models (models h ++ [Model.constructor (l_resources l) model_url]) h) w in
        let w := note SlotModelRenderer gen
                   (upd_refs (put_modelRendererRef (Some mh)) w) in
        set_pc gen (AtModel l mh) w
    end
  end.

(** After [await modelRenderer.initialize(...)]. *)
Definition after_model (ans : Answers) (gen : nat) (l : Locals) (mh : handle)
    (w : World) : World :=
  match models (heap w) !! mh with
  | None => init_failed gen dangling w
  | Some mo =>
    let '(r, mo', g') :=
      Model.initialize (model_env ans) (l_presentationFormat l) mo (gpu (heap w)) in
    let w := upd_heap (fun h =>
               put_gpu g' (put_models (<[mh := mo']> (models h)) h)) w in
    match r with
    | Throw m => init_failed gen m w
    | Ok _ =>
      if superseded gen w then set_pc gen Finished w
      else
        let ph := length (posts (heap w)) in
        let w := upd_heap (fun h =>
                   put_posts (posts h ++ [Post.constructor (l_resources l)]) h) w in
        let w := note SlotPostRenderer gen
                   (upd_refs (put_postRendererRef (Some ph)) w) in
        set_pc gen (AtPost l mh ph) w
    end
  end.

Definition with_scene (color depth : handle) (r : Resources) : Resources :=
  {| device := device r; sceneColorTexture := Some color;
     sceneDepthTexture := Some depth |}.

(** After [await postRenderer.initialize(...)], to the end of
    [initWebGPU]. *)
Definition after_post (br : Browser) (ans : Answers) (gen : nat) (l : Locals)
    (mh ph : handle) (w : World) : World :=
  match posts (heap w) !! ph with
  | None => init_failed gen dangling w
  | Some po =>
    let '(r, po', g') :=
      Post.initialize (shaders ans) (l_presentationFormat l)
        (Some (l_sceneColorTexture l)) po (gpu (heap w)) in
    let w := upd_heap (fun h =>
               put_gpu g' (put_posts (<[ph := po']> (posts h)) h)) w in
    match r with
    | Throw m => init_failed gen m w
    | Ok _ =>
      if superseded gen w then set_pc gen Finished w
      else
        match resourcesRef (refs w) with
        | None => init_failed gen null_property w
        | Some cur =>
          let w := upd_heap (fun h =>
                     put_resourcesObjs
                       (alter (with_scene (l_sceneColorTexture l) (l_sceneDepthTexture l))
                              cur (resourcesObjs h)) h) w in
          let w := note SlotSceneTextures gen w in
          let w := render br (first_frame ans) gen w in
          let w := upd_state (put_isInitialized true) w in
          set_pc gen Finished w
        end
    end
  end.

(** The promise awaited by [initWebGPU(gen)] settles and the run
    continues to its next [await] or to its end. *)
Definition settle (br : Browser) (ans : Answers) (gen : nat) (w : World) : World :=
  match find_task gen w with
  | None => w
  | Some t =>
    match t_pc t with
    | AtAdapter => after_adapter ans gen w
    | AtDevice => after_device br ans gen (t_width t) (t_height t) w
    | AtTriangle l => after_triangle ans gen l w
    | AtModel l mh => after_model ans gen l mh w
    | AtPost l mh ph => after_post br ans gen l mh ph w
    | Finished => w
    end
  end.

(** *** The effect and its cleanup *)

Definition effect (br : Browser) (width height : Z) (w : World) : World :=
  let gen := S (generationRef (refs w)) in
  let w := upd_refs (put_generationRef gen) w in
  let w := upd_refs (put_aliveRef true) w in
  initWebGPU_enter br gen width height w.

Definition cleanup (w : World) : World :=
  let w := upd_refs (put_aliveRef false) w in
  match animationIdRef (refs w) with
  | Some (S n) =>
    upd_refs (put_animationIdRef None) (cancelAnimationFrame (S n) w)
  | _ => w
  end.

(** *** resize *)

(** The condition of the [if] in [resize].  [TriangleRenderer] objects
    have no [isInitialized] property, so that read is [undefined]. *)
Definition triangle_isInitialized (tri : Triangle.t) : option bool := None.

Definition truthy (v : option bool) : bool :=
  match v with
  | Some b => b
  | None => false
  end.

Definition resize_guard (w : World) : bool :=
  mounted (dom w)
  && bool_decide (is_Some (deviceRef (refs w)))
  && match triangleRendererRef (refs w) with
     | Some th =>
       match triangles (heap w) !! th with
       | Some tri => truthy (triangle_isInitialized tri)
       | None => false
       end
     | None => false
     end
  && match modelRendererRef (refs w) with
     | Some mh =>
       match models (heap w) !! mh with
       | Some mo => Model.isInitialized mo
       | None => false
       end
     | None => false
     end
  && match postRendererRef (refs w) with
     | Some ph =>
       match posts (heap w) !! ph with
       | Some po => Post.isInitialized po
       | None => false
       end
     | None => false
     end.

Definition destroy_if_present (t : option handle) (g : Store) : Store :=
  match t with
  | Some h => destroyTexture h g
  | None => g
  end.

(** [triangleRendererRef.current.resize(...)] and
    [modelRendererRef.current.resize(...)] *)
Definition resize_geometry (br : Browser) (cw ch : Z) (w : World) : World :=
  let fmt := preferredCanvasFormat br in
  upd_heap (fun h =>
    put_models
      (match modelRendererRef (refs w) with
       | Some mh => alter (Model.resize cw ch fmt) mh (models h)
       | None => models h
       end)
      (put_triangles
         (match triangleRendererRef (refs w) with
          | Some th => alter (Triangle.resize cw ch fmt) th (triangles h)
          | None => triangles h
          end) h)) w.

(** The block guarded by the [if]. *)
Definition resize_body (br : Browser) (newWidth newHeight : Z) : M unit :=
  let cw := scaled br newWidth in
  let ch := scaled br newHeight in
  modify (upd_dom (put_canvas {| canvas_width := cw; canvas_height := ch |})) ;;;
  rh <- (o <- gets (fun w => resourcesRef (refs w)) ;; required o dangling) ;;
  modify (resize_geometry br cw ch) ;;;
  res <- (o <- gets (fun w => resourcesObjs (heap w) !! rh) ;; required o dangling) ;;
  modify (upd_heap (fun h =>
    put_gpu (destroy_if_present (sceneDepthTexture res)
               (destroy_if_present (sceneColorTexture res) (gpu h))) h)) ;;;
  g <- gets (fun w => gpu (heap w)) ;;
  let '(color, g1) :=
    createRenderTexture cw ch (preferredCanvasFormat br)
      "Combined scene color texture" g in
  let '(depth, g2) := createSceneDepth cw ch g1 in
  modify (upd_heap (fun h =>
    put_gpu g2 (put_resourcesObjs
                  (alter (with_scene color depth) rh (resourcesObjs h)) h))) ;;;
  ph <- (o <- gets (fun w => postRendererRef (refs w)) ;; required o dangling) ;;
  po <- (o <- gets (fun w => posts (heap w) !! ph) ;; required o dangling) ;;
  g3 <- gets (fun w => gpu (heap w)) ;;
  let '(r, po', g4) := Post.resize (Some color) po g3 in
  modify (upd_heap (fun h => put_gpu g4 (put_posts (<[ph := po']> (posts h)) h))) ;;;
  lift r.

Definition resize (br : Browser) (newWidth newHeight : Z) : M unit :=
  fun w =>
    if resize_guard w then resize_body br newWidth newHeight w
    else (Ok tt, w).

(** *** Everything that can happen to the hook *)

Inductive Event : Type :=
| Effect (width height : Z)                      (* the effect body runs *)
| Cleanup                                        (* its cleanup runs *)
| Settle (gen : nat) (ans : Answers)             (* an awaited promise settles *)
| AnimationFrame (id : nat) (fenv : FrameEnv)    (* the browser runs a callback *)
| Resize (newWidth newHeight : Z).               (* the component calls [resize] *)

(** The browser runs the pending callback [id]: it leaves the pending list
    and the [render] it holds is called. *)
Definition animation_frame (br : Browser) (id : nat) (fenv : FrameEnv)
    (w : World) : World :=
  match find (fun f => (fst f =? id)%nat) (frames (sched w)) with
  | Some (_, gen) => render br fenv gen (cancelAnimationFrame id w)
  | None => w
  end.

Definition step (br : Browser) (w : World) (ev : Event) : World :=
  match ev with
  | Effect width height => effect br width height w
  | Cleanup => cleanup w
  | Settle gen ans => settle br ans gen w
  | AnimationFrame id fenv => animation_frame br id fenv w
  | Resize newWidth newHeight => snd (resize br newWidth newHeight w)
  end.

Definition run (br : Browser) (evs : list Event) (w : World) : World :=
  fold_left (step br) evs w.

(** The hook right after the component mounted. *)
Definition initial : World :=
  {| state := {| error := None; isInitialized := false |};
     refs := {| deviceRef := None; contextRef := None; animationIdRef := None;
                resourcesRef := None; triangleRendererRef := None;
                modelRendererRef := None; postRendererRef := None;
                generationRef := 0; aliveRef := false |};
     dom := {| mounted := true;
               canvas := {| canvas_width := 300; canvas_height := 150 |};
               configuration := None |};
     heap := {| gpu := Gpu.empty; resourcesObjs := []; triangles := [];
                models := []; posts := []; deviceCount := 0 |};
     sched := {| tasks := []; frames := []; nextFrameId := 1 |};
     out := {| submitted := []; encoders := 0; installs := [] |} |}.

End Hook.

(* ===================================================================== *)
(** ** Notions used to state the properties                               *)
(* ===================================================================== *)
Module Notions.
Import Gpu Extract Providers Hook.



(** The texture object [_createDefaultTexture] creates and fills. *)
Definition placeholder : GPUTexture :=
  {| tex_width := 2; tex_height := 2; tex_format := "rgba8unorm";
     tex_usage := 6; tex_label := None; tex_destroyed := false;
     tex_texels :=
       TexelBytes [255; 0; 0; 255;  0; 255; 0; 255;
                   0; 0; 255; 255;  255; 255; 0; 255] 8 2 2 |}.

(** The three situations in which [loadTexture] falls back: the document
    offers no texture; the chosen texture has no image bytes or bytes that
    [createImageBitmap] rejects; the chosen texture is tagged
    [image/ktx2]. *)
Definition falls_back (pf : Platform) (d : Document) : Prop :=
  select_texture d = None \/
  exists t, select_texture d = Some t /\
    (getImage t = None \/
     getImage t = Some [] \/
     (exists bytes m, getImage t = Some bytes /\
                      createImageBitmap pf bytes (mimeType_of t) = Throw m) \/
     getMimeType t = "image/ktx2").

(** The commands a pass may not contain if it is to draw without vertex
    buffers. *)
Definition binds_vertex_buffer (c : Command) : bool :=
  match c with
  | SetVertexBuffer _ _ => true
  | SetIndexBuffer _ _ => true
  | _ => false
  end.

(** *** The hook *)

(** How a world may differ from an earlier one after part of a frame was
    recorded: refs, React state, scheduler and submissions are the same. *)
Definition recording (w w' : World) : Prop :=
  refs w' = refs w /\ state w' = state w /\ sched w' = sched w /\
  submitted (out w') = submitted (out w) /\
  installs (out w') = installs (out w).

(** A computation that only records. *)
Definition keeps {A} (m : M A) : Prop :=
  forall w r w', m w = (r, w') -> recording w w'.

(** A computation that records and then ends the [try] block in one of its
    three ways. *)
Definition ends_frame (gen : nat) (m : M bool) : Prop :=
  forall w r w', m w = (r, w') ->
    exists w1, recording w w1 /\
      match r with
      | Throw _ => w' = w1
      | Ok false => w' = schedule gen w1
      | Ok true => exists cb, w' = submit gen cb w1
      end.

(** From [w] to [w'] neither [generationRef] nor [aliveRef] moved, and
    whatever was submitted in between was submitted by the [render] of the
    current generation while the hook was alive. *)
Definition stays (w w' : World) : Prop :=
  generationRef (refs w') = generationRef (refs w) /\
  aliveRef (refs w') = aliveRef (refs w) /\
  exists l, submitted (out w') = l ++ submitted (out w) /\
            Forall (fun s => fst s = generationRef (refs w) /\ aliveRef (refs w) = true) l.

(** Generation [g] has been torn down or superseded. *)
Definition torn_down (g : nat) (w : World) : Prop :=
  (g <= generationRef (refs w))%nat /\
  (aliveRef (refs w) = false \/ (g < generationRef (refs w))%nat).

(** What the [render] of generation [g] has submitted so far. *)
Definition submissions_of (g : nat) (w : World) : list (nat * CommandBuffer) :=
  filter (fun s => fst s = g) (submitted (out w)).

(** The assignment happened while its generation was the current one and
    the hook alive. *)
Definition checked (i : Install) : Prop :=
  by_gen i = current_gen i /\ alive_then i = true.

(** The slots assigned after one of the three checks of [initWebGPU]. *)
Definition after_a_check (s : Slot) : bool :=
  match s with
  | SlotModelRenderer | SlotPostRenderer | SlotSceneTextures => true
  | _ => false
  end.

Definition well_checked (i : Install) : Prop :=
  after_a_check (slot i) = true -> checked i.

(** From [w] to [w'] only well-checked installs were added. *)
Definition adds_checked (w w' : World) : Prop :=
  exists l, installs (out w') = l ++ installs (out w) /\ Forall well_checked l.

(** The record of an assignment to [s] made by [gen] in world [w]. *)
Definition install_at (gen : nat) (w : World) (s : Slot) : Install :=
  {| slot := s; by_gen := gen; current_gen := generationRef (refs w);
     alive_then := aliveRef (refs w) |}.

(** The generations with a pending animation frame. *)
Definition looping (w : World) : list nat := snd <$> frames (sched w).

(** No generation has two pending frames, and every pending frame belongs
    to a generation whose [initWebGPU] has ended. *)
Definition one_loop_each (w : World) : Prop :=
  NoDup (looping w) /\
  forall g, g ∈ looping w ->
    exists t, find_task g w = Some t /\ t_pc t = Finished.

(** The resources object the hook currently points to. *)
Definition current_resources (w : World) : option Resources :=
  match resourcesRef (refs w) with
  | Some rh => resourcesObjs (heap w) !! rh
  | None => None
  end.

Definition texture_of (w : World) (t : option handle) : option GPUTexture :=
  match t with
  | Some h => textures (gpu (heap w)) !! h
  | None => None
  end.

(** The Scene Targets: the textures behind [resources.sceneColorTexture]
    and [resources.sceneDepthTexture]. *)
Definition scene_color_of (w : World) : option GPUTexture :=
  match current_resources w with
  | Some res => texture_of w (sceneColorTexture res)
  | None => None
  end.

Definition scene_depth_of (w : World) : option GPUTexture :=
  match current_resources w with
  | Some res => texture_of w (sceneDepthTexture res)
  | None => None
  end.

Definition size_of (t : GPUTexture) : Z * Z := (tex_width t, tex_height t).

(** The texture the post provider samples, according to its bind group. *)
Definition post_source_of (w : World) : option handle :=
  match postRendererRef (refs w) with
  | Some ph =>
    match posts (heap w) !! ph with
    | Some po =>
      match Post.bindGroup po with
      | Some bg =>
        match bindGroups (gpu (heap w)) !! bg with
        | Some b =>
          match bg_entries b with
          | [_; (_, TextureViewBinding t)] => Some t
          | _ => None
          end
        | None => None
        end
      | None => None
      end
    | None => None
    end
  | None => None
  end.

(** All three [initialize] calls have completed and [initWebGPU] has
    reported it. *)
Definition providers_initialized (w : World) : Prop :=
  isInitialized (state w) = true /\
  (exists th tri, triangleRendererRef (refs w) = Some th /\
                  triangles (heap w) !! th = Some tri /\
                  is_Some (Triangle.pipeline tri)) /\
  (exists mh mo, modelRendererRef (refs w) = Some mh /\
                 models (heap w) !! mh = Some mo /\ Model.isInitialized mo = true) /\
  (exists ph po, postRendererRef (refs w) = Some ph /\
                 posts (heap w) !! ph = Some po /\ Post.isInitialized po = true).

End Notions.
Export Notions.

(* ===================================================================== *)
(** ** Sample inputs                                                      *)
(* ===================================================================== *)
Module Samples.
Import Gpu Extract Providers Hook.

Definition chrome : Browser :=
  {| has_gpu := true; devicePixelRatio := of_nat 1;
     preferredCanvasFormat := "bgra8unorm"; guiColor := "#ff0000" |}.

(** Three vertices without texture coordinates. *)
Definition sample_positions : list f32 :=
  [ zero; zero; zero;  Triangle.one; zero; zero;  zero; Triangle.one; zero ].

Definition sample_primitive (idx : option (list Z)) : Primitive :=
  {| attributes := {[ "POSITION" := sample_positions ]}; getIndices := idx |}.

Definition sample_mesh (idx : option (list Z)) : Mesh :=
  {| listPrimitives := [sample_primitive idx] |}.

(** A document with that one mesh, no material and no texture. *)
Definition triangle_document (idx : option (list Z)) : Document :=
  {| listMeshes := [sample_mesh idx];
     listMaterials := [];
     listTextures := [] |}.

Definition no_decoder : Platform :=
  {| createImageBitmap := fun _ _ => Throw "The source image could not be decoded.";
     copy_rejects := fun _ => None |}.

Definition smooth_frame : FrameEnv :=
  {| throws := fun _ => None; currentTexture := true |}.

Definition all_good : Answers :=
  {| requestAdapter := Ok true;
     requestDevice := Ok tt;
     getContext := true;
     shaders := fun _ => Ok "";
     loadModel := fun _ => Ok (triangle_document (Some [0; 1; 2]));
     platform := no_decoder;
     first_frame := smooth_frame |}.

Definition startup (gen : nat) : list Event :=
  [ Settle gen all_good; Settle gen all_good; Settle gen all_good;
    Settle gen all_good; Settle gen all_good ].

Definition running : World := run chrome (Effect 800 600 :: startup 1) initial.

(** The first generation is still waiting for its adapter when the effect
    is cleaned up and run again; then its two pending requests settle. *)
Definition overtaken : World :=
  run chrome [ Effect 800 600; Cleanup; Effect 1024 768;
               Settle 1 all_good; Settle 1 all_good ] initial.

(** As above, but the second generation finishes its start-up first, and
    a frame comes after the first generation's late assignments. *)
Definition overtaken_late : World :=
  run chrome ([ Effect 800 600; Cleanup; Effect 1024 768 ] ++ startup 2 ++
              [ Settle 1 all_good; Settle 1 all_good; AnimationFrame 1 smooth_frame ])
      initial.

(** A frame on which [queue.submit] fails. *)
Definition device_lost_frame : FrameEnv :=
  {| throws := fun s => match s with
                        | Submit => Some "Device is lost"
                        | _ => None
                        end;
     currentTexture := true |}.


End Samples.
Export Samples.

(* ===================================================================== *)
(** * Properties                                                          *)
(* ===================================================================== *)

(** ** Lists *)
Section ListFacts.

Lemma alter_snoc {A} (f : A -> A) (l : list A) (x : A) :
  alter f (length l) (l ++ [x]) = l ++ [f x].
Proof.
  induction l as [|a l IH]; [reflexivity |].
  change (a :: alter f (length l) (l ++ [x]) = a :: (l ++ [f x])).
  now rewrite IH.
Qed.

Lemma lookup_snoc {A} (l : list A) (x : A) : (l ++ [x]) !! length l = Some x.
Proof. induction l as [|a l IH]; simpl; [reflexivity | exact IH]. Qed.

Lemma lookup_snoc_eq {A} (l : list A) (x : A) (i : nat) :
  i = length l -> (l ++ [x]) !! i = Some x.
Proof. intros ->. apply lookup_snoc. Qed.

Lemma lookup_snoc_old {A} (l : list A) (x : A) (i : nat) :
  (i < length l)%nat -> (l ++ [x]) !! i = l !! i.
Proof. intros H. now apply lookup_app_l. Qed.

End ListFacts.

(** ** Numbers *)
Section NumberFacts.

Lemma Qred_inject_Z (z : Z) : Qred (inject_Z z) = inject_Z z.
Proof.
  unfold Qred, inject_Z; simpl.
  pose proof (Z.ggcd_gcd z 1) as Hg.
  pose proof (Z.ggcd_correct_divisors z 1) as Hd.
  destruct (Z.ggcd z 1) as [g [a b]]; simpl in *.
  rewrite Z.gcd_1_r in Hg; subst g.
  destruct Hd as [Ha Hb]. rewrite Z.mul_1_l in Ha, Hb.
  subst z; subst b. reflexivity.
Qed.

Lemma div_exact (n : nat) : div (of_nat (3 * n)) (of_nat 3) = of_nat n.
Proof.
  unfold div, of_nat.
  rewrite <- (Qred_inject_Z (Z.of_nat n)).
  apply Qred_complete.
  rewrite Nat2Z.inj_mul, inject_Z_mult. simpl (Z.of_nat 3).
  field.
Qed.

Lemma mul_of_nat (n k : nat) : mul (of_nat n) (of_nat k) = of_nat (n * k).
Proof.
  unfold mul, of_nat.
  rewrite <- inject_Z_mult, <- Nat2Z.inj_mul. apply Qred_inject_Z.
Qed.

Lemma ToIndex_of_nat (n : nat) : ToIndex (of_nat n) = n.
Proof. unfold ToIndex, of_nat. rewrite Qfloor_Z. apply Nat2Z.id. Qed.




End NumberFacts.

(** ** Mesh extraction *)
Section ExtractFacts.
Import Extract.

Lemma repeat_lookup {A} (a : A) (k i : nat) :
  (i < k)%nat -> repeat a k !! i = Some a.
Proof.
  revert i; induction k as [|k IH]; intros i Hi; [lia |].
  destruct i; simpl; [reflexivity | apply IH; lia].
Qed.

Lemma store_zero_repeat (k i : nat) : store (repeat zero k) i zero = repeat zero k.
Proof.
  unfold store. revert i; induction k as [|k IH]; intros i; simpl.
  - reflexivity.
  - destruct i; simpl; [reflexivity | now rewrite IH].
Qed.

Lemma fill_default_uv_new (k : nat) :
  fill_default_uv (new_Float32Array k) = repeat zero k.
Proof.
  unfold fill_default_uv, new_Float32Array.
  generalize (seq 0 (length (repeat zero k))) as idx.
  induction idx as [|i idx IH]; simpl; [reflexivity |].
  now rewrite store_zero_repeat.
Qed.

(** C7. [extractMesh] throws the no-mesh error exactly when the document
    lists no mesh; otherwise the no-primitive error exactly when the first
    mesh lists no primitive; otherwise the missing-attribute error exactly
    when the first primitive has no POSITION attribute; and it returns a
    result in every remaining case. *)
Theorem extractMesh_failures (d : Document) :
  (extractMesh d = Throw no_meshes <-> listMeshes d = []) /\
  (extractMesh d = Throw no_primitives <->
     exists m ms, listMeshes d = m :: ms /\ listPrimitives m = []) /\
  (extractMesh d = Throw no_position <->
     exists m ms p ps, listMeshes d = m :: ms /\ listPrimitives m = p :: ps /\
                       getAttribute p "POSITION" = None) /\
  ((exists md, extractMesh d = Ok md) <->
     exists m ms p ps, listMeshes d = m :: ms /\ listPrimitives m = p :: ps /\
                       getAttribute p "POSITION" <> None).
Proof.
  unfold extractMesh.
  destruct (listMeshes d) as [|m ms].
  { repeat split; try discriminate; try reflexivity.
    - intros (? & ? & ? & _); discriminate.
    - intros (? & ? & ? & ? & ? & _); discriminate.
    - intros [? ?]; discriminate.
    - intros (? & ? & ? & ? & ? & _); discriminate. }
  destruct (listPrimitives m) as [|p ps] eqn:Hp.
  { repeat split; try discriminate.
    - intros _. exists m, ms. split; [reflexivity | exact Hp].
    - intros (? & ? & ? & ? & E & E' & _). inversion E; subst. congruence.
    - intros [? ?]; discriminate.
    - intros (? & ? & ? & ? & E & E' & _). inversion E; subst. congruence. }
  destruct (getAttribute p "POSITION") as [pos|] eqn:Ha.
  - destruct (getIndices p); simpl.
    all: repeat split; try discriminate.
    all: try (intros (? & ? & E & E'); inversion E; subst; congruence).
    all: try (intros (? & ? & ? & ? & E & E' & E''); inversion E; subst;
              rewrite Hp in E'; inversion E'; subst; congruence).
    all: try (intros _; exists m, ms, p, ps; repeat split; congruence).
    all: intros _; eexists; reflexivity.
  - repeat split; try discriminate.
    + intros (? & ? & E & E'); inversion E; subst; congruence.
    + intros _. exists m, ms, p, ps. repeat split; assumption.
    + intros [? ?]; discriminate.
    + intros (? & ? & ? & ? & E & E' & E''). inversion E; subst.
      rewrite Hp in E'; inversion E'; subst. congruence.
Qed.

(** Without TEXCOORD_0 the texcoord array is all zeros, whatever the
    length of the position array. *)
Lemma default_texcoords_zero (d : Document) (md : MeshData) m ms p ps :
  listMeshes d = m :: ms -> listPrimitives m = p :: ps ->
  getAttribute p "TEXCOORD_0" = None ->
  extractMesh d = Ok md ->
  texcoords md = repeat zero (ToIndex (mul (vertexCount md) (of_nat 2))).
Proof.
  intros Hm Hp Ht. unfold extractMesh. rewrite Hm, Hp, Ht.
  destruct (getAttribute p "POSITION"); [|discriminate].
  destruct (getIndices p); intros E; inversion E; subst; simpl;
    apply fill_default_uv_new.
Qed.

(** C8. When the first primitive has POSITION (three numbers per vertex)
    but no TEXCOORD_0, [extractMesh] returns a texcoord array of length
    [2 * vertexCount] whose every element is [0.0], with [vertexCount]
    the length of the position array divided by 3. *)
Theorem missing_texcoord_gives_zeros (d : Document) m ms p ps pos (n : nat) :
  listMeshes d = m :: ms -> listPrimitives m = p :: ps ->
  getAttribute p "POSITION" = Some pos ->
  getAttribute p "TEXCOORD_0" = None ->
  length pos = (3 * n)%nat ->
  exists md, extractMesh d = Ok md /\
             vertexCount md = of_nat n /\
             positions md = pos /\
             length (texcoords md) = (2 * n)%nat /\
             (forall i, (i < 2 * n)%nat -> texcoords md !! i = Some zero).
Proof.
  intros Hm Hp Ha Ht Hlen. unfold extractMesh. rewrite Hm, Hp, Ha, Ht, Hlen.
  rewrite div_exact, mul_of_nat, ToIndex_of_nat, fill_default_uv_new.
  replace (n * 2)%nat with (2 * n)%nat by lia.
  destruct (getIndices p); eexists; (split; [reflexivity|]); simpl;
    (repeat split; [apply repeat_length | intros i Hi; now apply repeat_lookup]).
Qed.

End ExtractFacts.

(** ** The model provider *)
Section ModelFacts.
Import Gpu Extract Providers.






(** [loop_count] is the number of iterations of the [for] loop. *)
Lemma loop_count_spec (n : number) (i : nat) :
  lt_number i n = true <-> (i < Model.loop_count n)%nat.
Proof.
  unfold lt_number, Model.loop_count, of_nat.
  destruct (Qcompare_spec (inject_Z (Z.of_nat i)) n) as [He | Hlt | Hgt].
  - split; [discriminate |]. intros H.
    rewrite <- (Qceiling_comp _ _ He), Qceiling_Z in H. lia.
  - split; [intros _ | reflexivity].
    assert (Z.of_nat i < Qceiling n); [| lia].
    apply Z.lt_nge. intros Hle.
    apply (Qlt_irrefl n). eapply Qle_lt_trans; [apply Qle_ceiling |].
    eapply Qle_lt_trans; [| exact Hlt].
    rewrite <- Zle_Qle. exact Hle.
  - split; [discriminate |]. intros H.
    assert (Z.of_nat i < Qceiling n) as Hc by lia.
    exfalso. apply (Qlt_irrefl n).
    eapply Qlt_le_trans; [exact Hgt |].
    assert (Z.of_nat i <= Qceiling n - 1) as Hle by lia.
    rewrite Zle_Qle in Hle.
    eapply Qle_trans; [exact Hle |]. apply Qlt_le_weak, Qceiling_lt.
Qed.











End ModelFacts.

(** ** Texture loading *)
Section TextureFacts.
Import Gpu Extract.

Lemma createDefaultTexture_spec (g : Store) :
  exists g', _createDefaultTexture g = (length (textures g), g') /\
             textures g' = textures g ++ [placeholder] /\
             buffers g' = buffers g.
Proof.
  unfold _createDefaultTexture, createTexture, writeTexture. simpl.
  eexists. split; [reflexivity |]. simpl. split; [| reflexivity].
  rewrite alter_snoc. reflexivity.
Qed.

(** C6. In each fallback case [loadTexture] does not throw and returns a
    new texture that is the 2x2 [rgba8unorm] placeholder holding the bytes
    [255,0,0,255, 0,255,0,255, 0,0,255,255, 255,255,0,255]. *)
Theorem loadTexture_fallback (pf : Platform) (d : Document) (g : Store) :
  falls_back pf d ->
  exists t g',
    loadTexture pf d g = (Ok t, g') /\
    textures g' !! t = Some placeholder /\
    tex_texels placeholder =
      TexelBytes [255; 0; 0; 255;  0; 255; 0; 255;
                  0; 0; 255; 255;  255; 255; 0; 255] 8 2 2 /\
    (tex_width placeholder, tex_height placeholder) = (2, 2).
Proof.
  intros Hfb.
  destruct (createDefaultTexture_spec g) as (g' & Hdef & Htex & _).
  exists (length (textures g)), g'.
  assert (Hlook : textures g' !! length (textures g) = Some placeholder)
    by (rewrite Htex; apply lookup_snoc).
  split; [| split; [exact Hlook | split; reflexivity]].
  assert (Hlet : (let '(t0, g1) := _createDefaultTexture g in (Ok t0, g1))
                 = (Ok (length (textures g)), g'))
    by (rewrite Hdef; reflexivity).
  unfold loadTexture.
  destruct Hfb as [Hnone | (t & Hsel & Hcase)].
  - rewrite Hnone. exact Hlet.
  - rewrite Hsel. cbv beta iota zeta.
    destruct (getImage t) as [bytes|] eqn:Himg; [| exact Hlet].
    destruct bytes as [|b bytes]; [exact Hlet |].
    cbn [length Nat.eqb].
    destruct (decide (mimeType_of t = "image/ktx2")) as [|Hmime]; [exact Hlet |].
    destruct Hcase as [Hc | [Hc | [(bs & m & Hc & Hthrow) | Hc]]]; try discriminate.
    + inversion Hc; subst bs. rewrite Hthrow. exact Hlet.
    + exfalso. apply Hmime. unfold mimeType_of. rewrite Hc. reflexivity.
Qed.

End TextureFacts.

(** ** The fullscreen pass *)
Section PostFacts.
Import Gpu Providers.

(** C9. [fullscreen.vert] sends the six vertex indices to the corners
    bottom-left, bottom-right, top-left, top-left, bottom-right, top-right
    with UV (0,1), (1,1), (0,0), (0,0), (1,1), (1,0); the post pass is one
    [draw(6)], which generates exactly these indices, binds no vertex
    buffer, and runs on a pipeline declared without vertex buffers. *)
Theorem fullscreen_quad_uv :
  map (fun vid => Shader.uv <$> Shader.main vid) (Shader.vertex_indices 6)
    = [Some (0, 1); Some (1, 1); Some (0, 0);
       Some (0, 0); Some (1, 1); Some (1, 0)]%Q /\
  map (fun vid => Shader.position <$> Shader.main vid) (Shader.vertex_indices 6)
    = [Some (-1, -1, 0, 1); Some (1, -1, 0, 1); Some (-1, 1, 0, 1);
       Some (-1, 1, 0, 1); Some (1, -1, 0, 1); Some (1, 1, 0, 1)]%Q /\
  (forall po enc, Post.render po true enc = enc ++ [Post.post_pass po]) /\
  (forall po, rp_commands (Post.post_pass po)
              = [ SetPipeline (Post.pipeline po);
                  SetBindGroup 0 (Post.bindGroup po);
                  Draw (of_nat 6) ]) /\
  (forall po, existsb binds_vertex_buffer (rp_commands (Post.post_pass po)) = false) /\
  (forall l vm fm fmt, pl_vertex_buffers (Post.pipeline_descriptor l vm fm fmt) = []).
Proof. repeat split. Qed.

End PostFacts.

(** ** The hook *)
Section HookFacts.
Import Gpu Extract Providers Hook.


Variable br : Browser.

(** *** What the pieces of a frame leave alone *)

Lemma update_triangle_keeps th w :
  refs (update_triangle br th w) = refs w /\
  state (update_triangle br th w) = state w /\
  sched (update_triangle br th w) = sched w /\
  out (update_triangle br th w) = out w.
Proof.
  unfold update_triangle.
  destruct (triangles (heap w) !! th); [| repeat split].
  destruct (Triangle.update _ _ _ _). repeat split.
Qed.

Lemma update_model_keeps mh w :
  refs (update_model mh w) = refs w /\
  state (update_model mh w) = state w /\
  sched (update_model mh w) = sched w /\
  out (update_model mh w) = out w.
Proof.
  unfold update_model.
  destruct (models (heap w) !! mh); [| repeat split].
  destruct (Model.update _ _ _). repeat split.
Qed.

Lemma recording_refl w : recording w w.
Proof. repeat split. Qed.

Lemma recording_trans w1 w2 w3 : recording w1 w2 -> recording w2 w3 -> recording w1 w3.
Proof. unfold recording. intros (?&?&?&?&?) (?&?&?&?&?). repeat split; congruence. Qed.

Lemma recording_update_triangle th w : recording w (update_triangle br th w).
Proof.
  destruct (update_triangle_keeps th w) as (?&?&?&E). unfold recording. rewrite E. auto.
Qed.

Lemma recording_update_model mh w : recording w (update_model mh w).
Proof.
  destruct (update_model_keeps mh w) as (?&?&?&E). unfold recording. rewrite E. auto.
Qed.

Lemma recording_count_encoder w : recording w (count_encoder w).
Proof. repeat split. Qed.

Lemma keeps_ret {A} (a : A) : keeps (ret a).
Proof. intros w r w' E. inversion E. apply recording_refl. Qed.

Lemma keeps_raise {A} m : keeps (@raise A m).
Proof. intros w r w' E. inversion E. apply recording_refl. Qed.

Lemma keeps_attempt fenv s : keeps (attempt fenv s).
Proof. unfold attempt. destruct (throws fenv s); [apply keeps_raise | apply keeps_ret]. Qed.

Lemma keeps_required {A} (o : option A) m : keeps (required o m).
Proof. destruct o; [apply keeps_ret | apply keeps_raise]. Qed.

Lemma keeps_lift {A} (r : result A) : keeps (lift r).
Proof. destruct r; [apply keeps_ret | apply keeps_raise]. Qed.

Lemma keeps_gets {A} (f : World -> A) : keeps (gets f).
Proof. intros w r w' E. inversion E. apply recording_refl. Qed.

Lemma keeps_modify (f : World -> World) :
  (forall w, recording w (f w)) -> keeps (modify f).
Proof. intros Hf w r w' E. inversion E. apply Hf. Qed.

Lemma keeps_bind {A B} (m : M A) (k : A -> M B) :
  keeps m -> (forall a, keeps (k a)) -> keeps (mbind m k).
Proof.
  intros Hm Hk w r w' E. unfold mbind in E.
  destruct (m w) as [[a|e] w1] eqn:Em.
  - eapply recording_trans; [eapply Hm; eauto | eapply Hk; eauto].
  - inversion E; subst. eapply Hm; eauto.
Qed.

Lemma ends_frame_bind {A} gen (m : M A) (k : A -> M bool) :
  keeps m -> (forall a, ends_frame gen (k a)) -> ends_frame gen (mbind m k).
Proof.
  intros Hm Hk w r w' E. unfold mbind in E.
  destruct (m w) as [[a|e] w1] eqn:Em.
  - destruct (Hk a w1 r w' E) as (w2 & R & Hr).
    exists w2. split; [| exact Hr].
    eapply recording_trans; [eapply Hm; eauto | exact R].
  - inversion E; subst. exists w'. split; [eapply Hm; eauto | reflexivity].
Qed.

(** The outcome of the statements of the [try] block. *)
Lemma frame_record_outcome fenv gen rh th mh ph :
  ends_frame gen (frame_record br fenv gen rh th mh ph).
Proof.
  unfold frame_record.
  repeat (apply ends_frame_bind;
          [ first [ apply keeps_attempt
                  | apply keeps_modify; first [ apply recording_update_triangle
                                              | apply recording_update_model
                                              | apply recording_count_encoder ]
                  | apply keeps_bind; [apply keeps_gets | intros; apply keeps_required]
                  | apply keeps_required
                  | apply keeps_lift ]
          | intros ]).
  destruct (negb (currentTexture fenv)).
  - intros w r w' E. inversion E; subst. exists w. split; [apply recording_refl | reflexivity].
  - repeat (apply ends_frame_bind;
            [ first [ apply keeps_attempt
                    | apply keeps_bind; [apply keeps_gets | intros; apply keeps_required] ]
            | intros ]).
    intros w r w' E. inversion E; subst.
    exists w. split; [apply recording_refl | eexists; reflexivity].
Qed.

(** A [try] block that throws has only recorded. *)
Lemma thrown_frame fenv gen w message w1 :
  frame_try br fenv gen w = (Throw message, w1) -> recording w w1.
Proof.
  unfold frame_try. intros Htry.
  destruct (resourcesRef (refs w)) as [rh|]; [| discriminate].
  destruct (triangleRendererRef (refs w)) as [th|]; [| discriminate].
  destruct (modelRendererRef (refs w)) as [mh|]; [| discriminate].
  destruct (postRendererRef (refs w)) as [ph|]; [| discriminate].
  destruct (frame_record_outcome _ _ _ _ _ _ _ _ _ Htry) as (w2 & R & ->).
  exact R.
Qed.

(** C4. When the statements of the [try] block of a frame throw, the
    callback catches the error, the error state becomes the message
    prefixed with "Render error: ", nothing is submitted, and no animation
    frame is requested: the pending callbacks and [animationIdRef] are what
    they were. *)
Theorem render_failure_is_terminal fenv gen w message w1 :
  superseded gen w = false ->
  refs_missing w = false ->
  frame_try br fenv gen w = (Throw message, w1) ->
  error (state (render br fenv gen w)) = Some (String.append "Render error: " message) /\
  sched (render br fenv gen w) = sched w /\
  animationIdRef (refs (render br fenv gen w)) = animationIdRef (refs w) /\
  submitted (out (render br fenv gen w)) = submitted (out w).
Proof.
  intros Hlive Hrefs Htry. unfold render. rewrite Hlive, Hrefs, Htry.
  destruct (thrown_frame _ _ _ _ _ Htry) as (Hr & _ & Hs & Hsub & _).
  cbn. rewrite Hr, Hs, Hsub. repeat split.
Qed.

(** Each operation the platform fails does throw out of the [try] block:
    for instance the very first one. *)
Lemma first_step_failure fenv gen rh th mh ph w message :
  throws fenv UpdateTriangle = Some message ->
  frame_record br fenv gen rh th mh ph w = (Throw message, w).
Proof. intros H. unfold frame_record, mbind, attempt. rewrite H. reflexivity. Qed.

(** *** Generations *)

Lemma stays_refl w : stays w w.
Proof. repeat split. exists []. split; [reflexivity | constructor]. Qed.

Lemma stays_trans w1 w2 w3 : stays w1 w2 -> stays w2 w3 -> stays w1 w3.
Proof.
  intros (Hg1 & Ha1 & l1 & Hs1 & Hf1) (Hg2 & Ha2 & l2 & Hs2 & Hf2).
  repeat split; try congruence.
  exists (l2 ++ l1). split.
  - rewrite Hs2, Hs1. now rewrite app_assoc.
  - apply Forall_app. split; [| exact Hf1].
    rewrite Hg1, Ha1 in Hf2. exact Hf2.
Qed.

Lemma stays_same w w' :
  generationRef (refs w') = generationRef (refs w) ->
  aliveRef (refs w') = aliveRef (refs w) ->
  submitted (out w') = submitted (out w) ->
  stays w w'.
Proof. intros ? ? E. repeat split; try assumption. exists []. split; [exact E | constructor]. Qed.

Lemma stays_recording w w' : recording w w' -> stays w w'.
Proof. intros (Hr & _ & _ & Hs & _). apply stays_same; congruence. Qed.

Lemma superseded_false gen w :
  superseded gen w = false <-> aliveRef (refs w) = true /\ gen = generationRef (refs w).
Proof.
  unfold superseded. rewrite orb_false_iff, !negb_false_iff, Nat.eqb_eq. tauto.
Qed.

Lemma stays_render fenv gen w : stays w (render br fenv gen w).
Proof.
  unfold render.
  destruct (superseded gen w) eqn:Hsup; [apply stays_refl |].
  destruct (refs_missing w); [apply stays_refl |].
  apply superseded_false in Hsup as [Halive Hgen].
  unfold frame_try.
  destruct (resourcesRef (refs w)) as [rh|]; [| apply stays_refl].
  destruct (triangleRendererRef (refs w)) as [th|]; [| apply stays_refl].
  destruct (modelRendererRef (refs w)) as [mh|]; [| apply stays_refl].
  destruct (postRendererRef (refs w)) as [ph|]; [| apply stays_refl].
  destruct (frame_record br fenv gen rh th mh ph w) as [r w'] eqn:E.
  destruct (frame_record_outcome _ _ _ _ _ _ _ _ _ E) as (w1 & R & Hr).
  destruct R as (Hrefs & _ & _ & Hsub & _).
  destruct r as [[|]|m].
  - destruct Hr as [cb ->]. repeat split; cbn; try congruence.
    exists [(gen, cb)]. split; [now rewrite Hsub |].
    constructor; [split; [exact Hgen | exact Halive] | constructor].
  - subst w'. apply stays_same; cbn; congruence.
  - subst w'. apply stays_same; cbn; congruence.
Qed.

Ltac stays_now := apply stays_same; reflexivity.

Lemma stays_after_adapter ans gen w : stays w (after_adapter ans gen w).
Proof.
  unfold after_adapter. destruct (requestAdapter ans) as [[|]|]; stays_now.
Qed.

Lemma stays_after_device ans gen width height w :
  stays w (after_device br ans gen width height w).
Proof.
  unfold after_device.
  destruct (requestDevice ans); [| stays_now].
  destruct (getContext ans); stays_now.
Qed.

Lemma stays_after_triangle ans gen l w : stays w (after_triangle ans gen l w).
Proof.
  unfold after_triangle.
  destruct (triangles (heap w) !! l_triangleRenderer l); [| stays_now].
  destruct (Triangle.initialize _ _ _ _) as [[r tri'] g'].
  destruct r; [| stays_now].
  match goal with |- context [superseded gen ?x] => destruct (superseded gen x) end;
    stays_now.
Qed.

Lemma stays_after_model ans gen l mh w : stays w (after_model ans gen l mh w).
Proof.
  unfold after_model.
  destruct (models (heap w) !! mh); [| stays_now].
  destruct (Model.initialize _ _ _ _) as [[r mo'] g'].
  destruct r; [| stays_now].
  match goal with |- context [superseded gen ?x] => destruct (superseded gen x) end;
    stays_now.
Qed.

Lemma stays_after_post ans gen l mh ph w : stays w (after_post br ans gen l mh ph w).
Proof.
  unfold after_post.
  destruct (posts (heap w) !! ph); [| stays_now].
  destruct (Post.initialize _ _ _ _ _) as [[r po'] g'].
  destruct r; [| stays_now].
  match goal with |- context [superseded gen ?x] => destruct (superseded gen x) end;
    [stays_now |].
  destruct (resourcesRef _); [| stays_now].
  match goal with
  | |- stays ?a (set_pc _ _ (upd_state _ (render _ _ _ ?b))) =>
    apply (stays_trans a b); [stays_now |];
    apply (stays_trans b (render br (first_frame ans) gen b)); [apply stays_render |];
    stays_now
  end.
Qed.

Lemma stays_settle ans gen w : stays w (settle br ans gen w).
Proof.
  unfold settle. destruct (find_task gen w) as [t|]; [| apply stays_refl].
  destruct (t_pc t).
  - apply stays_after_adapter.
  - apply stays_after_device.
  - apply stays_after_triangle.
  - apply stays_after_model.
  - apply stays_after_post.
  - apply stays_refl.
Qed.

Lemma stays_animation_frame id fenv w : stays w (animation_frame br id fenv w).
Proof.
  unfold animation_frame.
  destruct (find _ _) as [[i gen]|]; [| apply stays_refl].
  eapply stays_trans; [| apply stays_render]. stays_now.
Qed.

(** The guard of [resize] never holds: the triangle provider has no
    [isInitialized]. *)
Lemma resize_guard_false w : resize_guard w = false.
Proof.
  unfold resize_guard.
  destruct (mounted (dom w)); [| reflexivity].
  destruct (bool_decide _); [| reflexivity].
  destruct (triangleRendererRef (refs w)) as [th|]; [| reflexivity].
  destruct (triangles (heap w) !! th); reflexivity.
Qed.

Lemma resize_does_nothing newWidth newHeight w :
  resize br newWidth newHeight w = (Ok tt, w).
Proof. unfold resize. now rewrite resize_guard_false. Qed.

Lemma torn_down_superseded g w : torn_down g w -> superseded g w = true.
Proof.
  intros [Hle [Hdead | Hlt]]; unfold superseded.
  - rewrite Hdead. reflexivity.
  - apply orb_true_iff. right. apply negb_true_iff, Nat.eqb_neq. lia.
Qed.

Lemma torn_down_stays g w w' :
  stays w w' -> torn_down g w ->
  torn_down g w' /\ submissions_of g w' = submissions_of g w.
Proof.
  intros (Hg & Ha & l & Hs & Hf) Htd. split.
  - unfold torn_down in *. rewrite Hg, Ha. exact Htd.
  - unfold submissions_of. rewrite Hs, filter_app.
    replace (filter (fun s => fst s = g) l) with (@nil (nat * CommandBuffer)); [reflexivity |].
    symmetry. clear Hs. induction Hf as [|s l [Hgen Halive] _ IH]; [reflexivity |].
    rewrite filter_cons_False; [exact IH |].
    destruct Htd as [Hle [Hdead | Hlt]]; [congruence | lia].
Qed.

Lemma torn_down_effect g width height w :
  torn_down g w ->
  torn_down g (effect br width height w) /\
  submissions_of g (effect br width height w) = submissions_of g w.
Proof.
  intros [Hle _]. unfold effect, initWebGPU_enter.
  destruct (negb (has_gpu br)); [| destruct (negb (mounted _)); [| destruct (_ || _)]];
    (split; [split; cbn; [lia | right; lia] | reflexivity]).
Qed.

Lemma cleanup_keeps g w :
  generationRef (refs (cleanup w)) = generationRef (refs w) /\
  aliveRef (refs (cleanup w)) = false /\
  submissions_of g (cleanup w) = submissions_of g w.
Proof.
  unfold cleanup. cbn.
  destruct (animationIdRef (refs w)) as [[|n]|]; repeat split.
Qed.

Lemma torn_down_step g w ev :
  torn_down g w ->
  torn_down g (step br w ev) /\ submissions_of g (step br w ev) = submissions_of g w.
Proof.
  intros Htd. destruct ev as [width height | | gen ans | id fenv | nw nh]; cbn [step].
  - now apply torn_down_effect.
  - destruct (cleanup_keeps g w) as (Hg & Ha & Hs).
    split; [| exact Hs]. destruct Htd as [Hle _].
    split; [now rewrite Hg | now left].
  - apply torn_down_stays; [apply stays_settle | exact Htd].
  - apply torn_down_stays; [apply stays_animation_frame | exact Htd].
  - rewrite resize_does_nothing. cbn. split; [exact Htd | reflexivity].
Qed.

Lemma torn_down_run g evs w :
  torn_down g w ->
  torn_down g (run br evs w) /\ submissions_of g (run br evs w) = submissions_of g w.
Proof.
  unfold run. revert w. induction evs as [|ev evs IH]; intros w Htd; cbn [fold_left].
  - split; [exact Htd | reflexivity].
  - destruct (torn_down_step g w ev Htd) as [Htd' Hs'].
    destruct (IH _ Htd') as [Htd'' Hs''].
    split; [exact Htd'' | congruence].
Qed.

(** C3. Once the cleanup has run for a world whose generations go up to
    [g] or beyond, then whatever happens next (a new effect at once, settled
    promises, animation frames, resizes): every call of the [render] of
    generation [g] returns at its first guard without touching anything, the
    submissions of generation [g] are exactly those made before the cleanup,
    and at no time do two generations pass the guard of [render]. *)
Theorem torn_down_generation_is_silent (g : nat) (w : World) (evs : list Event) :
  (g <= generationRef (refs w))%nat ->
  (forall fenv, render br fenv g (run br evs (cleanup w)) = run br evs (cleanup w)) /\
  submissions_of g (run br evs (cleanup w)) = submissions_of g w /\
  (forall g1 g2,
     superseded g1 (run br evs (cleanup w)) = false ->
     superseded g2 (run br evs (cleanup w)) = false -> g1 = g2).
Proof.
  intros Hle.
  destruct (cleanup_keeps g w) as (Hg & Ha & Hs).
  assert (Htd : torn_down g (cleanup w)) by (split; [now rewrite Hg | now left]).
  destruct (torn_down_run g evs _ Htd) as [Htd' Hs'].
  split; [| split].
  - intros fenv. unfold render. now rewrite (torn_down_superseded _ _ Htd').
  - congruence.
  - intros g1 g2 H1 H2.
    apply superseded_false in H1 as [_ ->]. apply superseded_false in H2 as [_ ->].
    reflexivity.
Qed.

(** *** Which installs are checked *)

Lemma adds_checked_same w w' :
  installs (out w') = installs (out w) -> adds_checked w w'.
Proof. intros E. exists []. split; [exact E | constructor]. Qed.

Lemma adds_checked_trans w1 w2 w3 :
  adds_checked w1 w2 -> adds_checked w2 w3 -> adds_checked w1 w3.
Proof.
  intros (l1 & E1 & F1) (l2 & E2 & F2). exists (l2 ++ l1). split.
  - rewrite E2, E1. now rewrite app_assoc.
  - now apply Forall_app.
Qed.

Lemma installs_render fenv gen w :
  installs (out (render br fenv gen w)) = installs (out w).
Proof.
  unfold render.
  destruct (superseded gen w); [reflexivity |].
  destruct (refs_missing w); [reflexivity |].
  unfold frame_try.
  destruct (resourcesRef (refs w)) as [rh|]; [| reflexivity].
  destruct (triangleRendererRef (refs w)) as [th|]; [| reflexivity].
  destruct (modelRendererRef (refs w)) as [mh|]; [| reflexivity].
  destruct (postRendererRef (refs w)) as [ph|]; [| reflexivity].
  destruct (frame_record br fenv gen rh th mh ph w) as [r w'] eqn:E.
  destruct (frame_record_outcome _ _ _ _ _ _ _ _ _ E) as (w1 & R & Hr).
  destruct R as (_ & _ & _ & _ & Hi).
  destruct r as [[|]|m]; [destruct Hr as [cb ->] | subst w' | subst w']; cbn; exact Hi.
Qed.

Lemma adds_unchecked w w' gen (ss : list Slot) :
  installs (out w') = map (install_at gen w) ss ++ installs (out w) ->
  forallb (fun s => negb (after_a_check s)) ss = true ->
  adds_checked w w'.
Proof.
  intros E H. exists (map (install_at gen w) ss). split; [exact E |].
  clear E. induction ss as [|s ss IH]; cbn; [constructor |].
  cbn in H. apply andb_true_iff in H as [Hs Hss].
  constructor; [| now apply IH].
  intros Hc. cbn in Hc. rewrite Hc in Hs. discriminate.
Qed.

Lemma adds_one_checked w w' w0 gen s :
  installs (out w') = install_at gen w s :: installs (out w) ->
  refs w0 = refs w ->
  superseded gen w0 = false ->
  adds_checked w w'.
Proof.
  intros E Hr Hsup. exists [install_at gen w s]. split; [exact E |].
  apply superseded_false in Hsup as [Ha Hg]. rewrite Hr in Ha, Hg.
  constructor; [| constructor]. intros _. split; cbn; assumption.
Qed.

Lemma adds_checked_settle ans gen w : adds_checked w (settle br ans gen w).
Proof.
  unfold settle. destruct (find_task gen w) as [t|]; [| now apply adds_checked_same].
  destruct (t_pc t) as [ | | l | l mh | l mh ph | ].
  - unfold after_adapter. destruct (requestAdapter ans) as [[|]|]; now apply adds_checked_same.
  - unfold after_device.
    destruct (requestDevice ans); [| now apply adds_checked_same].
    destruct (getContext ans).
    + apply (adds_unchecked _ _ gen
               [ SlotTriangleRenderer; SlotResources; SlotConfiguration;
                 SlotCanvasSize; SlotContext; SlotDevice ]); reflexivity.
    + apply (adds_unchecked _ _ gen [SlotDevice]); reflexivity.
  - unfold after_triangle.
    destruct (triangles (heap w) !! l_triangleRenderer l); [| now apply adds_checked_same].
    destruct (Triangle.initialize _ _ _ _) as [[r tri'] g'].
    destruct r; [| now apply adds_checked_same].
    match goal with |- context [superseded gen ?x] => destruct (superseded gen x) eqn:Hsup end;
      [now apply adds_checked_same |].
    eapply adds_one_checked; [reflexivity | | exact Hsup]; reflexivity.
  - unfold after_model.
    destruct (models (heap w) !! mh); [| now apply adds_checked_same].
    destruct (Model.initialize _ _ _ _) as [[r mo'] g'].
    destruct r; [| now apply adds_checked_same].
    match goal with |- context [superseded gen ?x] => destruct (superseded gen x) eqn:Hsup end;
      [now apply adds_checked_same |].
    eapply adds_one_checked; [reflexivity | | exact Hsup]; reflexivity.
  - unfold after_post.
    destruct (posts (heap w) !! ph); [| now apply adds_checked_same].
    destruct (Post.initialize _ _ _ _ _) as [[r po'] g'].
    destruct r; [| now apply adds_checked_same].
    match goal with |- context [superseded gen ?x] => destruct (superseded gen x) eqn:Hsup end;
      [now apply adds_checked_same |].
    destruct (resourcesRef _); [| now apply adds_checked_same].
    match goal with
    | |- adds_checked ?a (set_pc _ _ (upd_state _ (render _ _ _ ?b))) =>
      apply (adds_checked_trans a b);
        [eapply adds_one_checked; [reflexivity | | exact Hsup]; reflexivity |];
      apply adds_checked_same; cbn; apply installs_render
    end.
  - now apply adds_checked_same.
Qed.

Lemma adds_checked_step w ev : adds_checked w (step br w ev).
Proof.
  destruct ev as [width height | | gen ans | id fenv | nw nh]; cbn [step].
  - apply adds_checked_same. unfold effect, initWebGPU_enter.
    destruct (negb (has_gpu br)); [| destruct (negb (mounted _)); [| destruct (_ || _)]];
      reflexivity.
  - apply adds_checked_same. unfold cleanup. cbn.
    destruct (animationIdRef (refs w)) as [[|n]|]; reflexivity.
  - apply adds_checked_settle.
  - apply adds_checked_same. unfold animation_frame.
    destruct (find _ _) as [[i gen]|]; [| reflexivity].
    now rewrite installs_render.
  - rewrite resize_does_nothing. now apply adds_checked_same.
Qed.

(** On every run of the hook, the model provider, the post provider and
    the scene textures are installed only by the generation that is current
    and alive at that moment. *)
Lemma checked_installs evs :
  Forall well_checked (installs (out (run br evs initial))).
Proof.
  assert (H : forall w, Forall well_checked (installs (out w)) ->
                        Forall well_checked (installs (out (run br evs w)))).
  { unfold run. induction evs as [|ev evs IH]; intros w Hw; cbn [fold_left]; [exact Hw |].
    apply IH. destruct (adds_checked_step w ev) as (l & -> & Hl).
    now apply Forall_app. }
  apply H. constructor.
Qed.

(** *** One frame loop per generation *)

Lemma find_task_set_pc gen pc g w :
  find_task g (set_pc gen pc w) =
  (fun t => if (t_gen t =? gen)%nat then with_pc pc t else t) <$> find_task g w.
Proof.
  unfold find_task, set_pc. cbn.
  induction (tasks (sched w)) as [|t ts IH]; [reflexivity |].
  cbn. destruct (t_gen t =? gen)%nat eqn:E; cbn.
  - destruct (t_gen t =? g)%nat; [cbn; now rewrite E | exact IH].
  - destruct (t_gen t =? g)%nat; [cbn; now rewrite E | exact IH].
Qed.

Lemma find_task_spawn gen width height pc g w t :
  find_task g w = Some t -> find_task g (spawn gen width height pc w) = Some t.
Proof.
  unfold find_task, spawn. cbn.
  induction (tasks (sched w)) as [|a ts IH]; [discriminate |].
  cbn. destruct (t_gen a =? g)%nat; [trivial | exact IH].
Qed.

(** A world that differs from an [one_loop_each] world by less than the
    scheduler keeps the property. *)
Lemma one_loop_each_sched w w' :
  sched w' = sched w -> one_loop_each w -> one_loop_each w'.
Proof.
  unfold one_loop_each, looping, find_task. intros ->. trivial.
Qed.

(** Changing where a run that has not ended stands. *)
Lemma one_loop_each_set_pc gen pc w t :
  find_task gen w = Some t -> t_pc t <> Finished ->
  one_loop_each w -> one_loop_each (set_pc gen pc w).
Proof.
  intros Ht Hpc [Hnd Hfin]. split; [exact Hnd |].
  intros g Hg. destruct (Hfin g Hg) as (t' & Ht' & Hpc').
  rewrite find_task_set_pc, Ht'. cbn.
  destruct (t_gen t' =? gen)%nat eqn:E; [| eauto].
  apply Nat.eqb_eq in E.
  assert (t_gen t' = g).
  { pose proof Ht' as H. unfold find_task in H.
    apply find_some in H as [_ H]. now apply Nat.eqb_eq. }
  assert (Hgg : g = gen) by congruence.
  rewrite Hgg, Ht in Ht'. inversion Ht'; subst t'. contradiction.
Qed.

Lemma one_loop_each_remove (P : nat * nat -> Prop) `{forall x, Decision (P x)} w :
  one_loop_each w ->
  one_loop_each (upd_sched (fun s => put_frames (filter P (frames s)) s) w).
Proof.
  intros [Hnd Hfin]. unfold one_loop_each, looping in *. cbn.
  assert (Hsub : forall g, g ∈ snd <$> filter P (frames (sched w)) ->
                           g ∈ snd <$> frames (sched w)).
  { intros g Hg. apply list_elem_of_fmap in Hg as (f & -> & Hf).
    apply list_elem_of_filter in Hf as [_ Hf]. now apply list_elem_of_fmap_2. }
  split.
  - clear Hfin Hsub. induction (frames (sched w)) as [|f l IH]; [constructor |].
    change (snd <$> f :: l) with (snd f :: (snd <$> l)) in Hnd.
    apply NoDup_cons in Hnd as [Hnotin Hnd].
    rewrite filter_cons. destruct (decide (P f)); [| now apply IH].
    change (NoDup (snd f :: (snd <$> filter P l))).
    apply NoDup_cons. split; [| now apply IH].
    intros Hin. apply Hnotin.
    apply list_elem_of_fmap in Hin as (x & Hx & Hin).
    apply list_elem_of_filter in Hin as [_ Hin].
    rewrite Hx. now apply list_elem_of_fmap_2.
  - intros g Hg. apply Hfin, Hsub, Hg.
Qed.

(** Scheduling a frame for a generation that has none pending and whose
    run has ended. *)
Lemma one_loop_each_schedule gen w t :
  gen ∉ looping w ->
  find_task gen w = Some t -> t_pc t = Finished ->
  one_loop_each w -> one_loop_each (schedule gen w).
Proof.
  intros Hfresh Ht Hpc [Hnd Hfin]. unfold one_loop_each, looping, schedule in *. cbn.
  rewrite fmap_app. cbn. split.
  - apply NoDup_app. split; [exact Hnd |]. split; [| apply NoDup_singleton].
    intros x Hx Hx'. apply list_elem_of_singleton in Hx'. subst x. contradiction.
  - intros g Hg. apply elem_of_app in Hg as [Hg | Hg]; [now apply Hfin |].
    apply list_elem_of_singleton in Hg. subst g. eauto.
Qed.

Lemma find_task_sched g w w' : sched w' = sched w -> find_task g w' = find_task g w.
Proof. unfold find_task. now intros ->. Qed.

Lemma looping_sched w w' : sched w' = sched w -> looping w' = looping w.
Proof. unfold looping. now intros ->. Qed.

Lemma one_loop_each_moved gen pc w x t :
  sched x = sched w ->
  find_task gen w = Some t -> t_pc t <> Finished ->
  one_loop_each w -> one_loop_each (set_pc gen pc x).
Proof.
  intros Hs Ht Hpc Hw.
  apply (one_loop_each_set_pc gen pc x t); [| exact Hpc |].
  - now rewrite (find_task_sched _ _ _ Hs).
  - now apply (one_loop_each_sched w x).
Qed.

(** The run of [gen] ends right after its [render] asked for a frame. *)
Lemma one_loop_each_started gen w x t :
  sched x = sched w ->
  find_task gen w = Some t -> t_pc t <> Finished ->
  one_loop_each w -> one_loop_each (set_pc gen Finished (schedule gen x)).
Proof.
  intros Hs Ht Hpc [Hnd Hfin].
  assert (Hfresh : gen ∉ looping w).
  { intros Hin. destruct (Hfin gen Hin) as (t' & Ht' & Hpc'). congruence. }
  assert (Hl : looping (set_pc gen Finished (schedule gen x)) = looping w ++ [gen]).
  { unfold looping, set_pc, schedule. cbn. now rewrite Hs, fmap_app. }
  split; rewrite Hl.
  - apply NoDup_app. split; [exact Hnd |]. split; [| apply NoDup_singleton].
    intros g Hg Hg'. apply list_elem_of_singleton in Hg'. subst g. contradiction.
  - intros g Hg. rewrite find_task_set_pc.
    assert (Hf : find_task g (schedule gen x) = find_task g w)
      by (unfold find_task; cbn; now rewrite Hs).
    rewrite Hf.
    apply elem_of_app in Hg as [Hg | Hg].
    + destruct (Hfin g Hg) as (t' & Ht' & Hpc'). rewrite Ht'. cbn.
      destruct (t_gen t' =? gen)%nat; eauto.
    + apply list_elem_of_singleton in Hg. subst g. rewrite Ht. cbn.
      assert (t_gen t = gen) as ->.
      { pose proof Ht as H. unfold find_task in H.
        apply find_some in H as [_ H]. now apply Nat.eqb_eq. }
      rewrite Nat.eqb_refl. eauto.
Qed.

Lemma sched_setError m w : sched (setError m w) = sched w.
Proof. reflexivity. Qed.

(** [render] leaves the scheduler alone or asks for one frame. *)
Lemma render_sched fenv gen w :
  sched (render br fenv gen w) = sched w \/
  sched (render br fenv gen w) = sched (schedule gen w).
Proof.
  unfold render.
  destruct (superseded gen w); [now left |].
  destruct (refs_missing w); [now left |].
  unfold frame_try.
  destruct (resourcesRef (refs w)) as [rh|]; [| now left].
  destruct (triangleRendererRef (refs w)) as [th|]; [| now left].
  destruct (modelRendererRef (refs w)) as [mh|]; [| now left].
  destruct (postRendererRef (refs w)) as [ph|]; [| now left].
  destruct (frame_record br fenv gen rh th mh ph w) as [r w'] eqn:E.
  destruct (frame_record_outcome _ _ _ _ _ _ _ _ _ E) as (w1 & R & Hr).
  destruct R as (_ & _ & Hs & _).
  destruct r as [[|]|m].
  - destruct Hr as [cb ->]. right. unfold schedule. cbn. now rewrite Hs.
  - subst w'. right. unfold schedule. cbn. now rewrite Hs.
  - subst w'. left. cbn. exact Hs.
Qed.

Lemma one_loop_each_settle ans gen w :
  one_loop_each w -> one_loop_each (settle br ans gen w).
Proof.
  intros Hw. unfold settle.
  destruct (find_task gen w) as [t|] eqn:Ht; [| exact Hw].
  destruct (t_pc t) as [ | | l | l mh | l mh ph | ] eqn:Hpc; [ | | | | | exact Hw].
  - unfold after_adapter, init_failed.
    destruct (requestAdapter ans) as [[|]|];
      (eapply one_loop_each_moved; [| exact Ht | congruence | exact Hw]; reflexivity).
  - unfold after_device, init_failed.
    destruct (requestDevice ans);
      [| eapply one_loop_each_moved; [| exact Ht | congruence | exact Hw]; reflexivity].
    destruct (getContext ans);
      (eapply one_loop_each_moved; [| exact Ht | congruence | exact Hw]; reflexivity).
  - unfold after_triangle, init_failed.
    destruct (triangles (heap w) !! l_triangleRenderer l);
      [| eapply one_loop_each_moved; [| exact Ht | congruence | exact Hw]; reflexivity].
    destruct (Triangle.initialize _ _ _ _) as [[r tri'] g'].
    destruct r; [| eapply one_loop_each_moved; [| exact Ht | congruence | exact Hw]; reflexivity].
    match goal with |- context [superseded gen ?x] => destruct (superseded gen x) end;
      (eapply one_loop_each_moved; [| exact Ht | congruence | exact Hw]; reflexivity).
  - unfold after_model, init_failed.
    destruct (models (heap w) !! mh);
      [| eapply one_loop_each_moved; [| exact Ht | congruence | exact Hw]; reflexivity].
    destruct (Model.initialize _ _ _ _) as [[r mo'] g'].
    destruct r; [| eapply one_loop_each_moved; [| exact Ht | congruence | exact Hw]; reflexivity].
    match goal with |- context [superseded gen ?x] => destruct (superseded gen x) end;
      (eapply one_loop_each_moved; [| exact Ht | congruence | exact Hw]; reflexivity).
  - unfold after_post, init_failed.
    destruct (posts (heap w) !! ph);
      [| eapply one_loop_each_moved; [| exact Ht | congruence | exact Hw]; reflexivity].
    destruct (Post.initialize _ _ _ _ _) as [[r po'] g'].
    destruct r; [| eapply one_loop_each_moved; [| exact Ht | congruence | exact Hw]; reflexivity].
    match goal with |- context [superseded gen ?x] => destruct (superseded gen x) end;
      [eapply one_loop_each_moved; [| exact Ht | congruence | exact Hw]; reflexivity |].
    destruct (resourcesRef _);
      [| eapply one_loop_each_moved; [| exact Ht | congruence | exact Hw]; reflexivity].
    match goal with
    | |- one_loop_each (set_pc _ _ (upd_state _ (render _ _ _ ?b))) =>
      assert (Hb : sched b = sched w) by reflexivity;
      destruct (render_sched (first_frame ans) gen b) as [Hr | Hr]
    end.
    + eapply one_loop_each_moved; [| exact Ht | congruence | exact Hw].
      cbn. now rewrite Hr.
    + match goal with
      | |- one_loop_each (set_pc _ _ ?y) =>
        apply (one_loop_each_sched (set_pc gen Finished (schedule gen w)) (set_pc gen Finished y))
      end.
      * unfold set_pc. cbn. rewrite Hr. unfold schedule. cbn. reflexivity.
      * eapply one_loop_each_started; [reflexivity | exact Ht | congruence | exact Hw].
Qed.

Lemma one_loop_each_spawn gen width height pc w x :
  sched x = sched w -> one_loop_each w -> one_loop_each (spawn gen width height pc x).
Proof.
  intros Hs [Hnd Hfin].
  assert (Hl : looping (spawn gen width height pc x) = looping w)
    by (unfold looping, spawn; cbn; now rewrite Hs).
  split; rewrite Hl; [exact Hnd |].
  intros g Hg. destruct (Hfin g Hg) as (t & Ht & Hpc). exists t.
  split; [| exact Hpc]. apply find_task_spawn.
  now rewrite (find_task_sched _ _ _ Hs).
Qed.

Lemma one_loop_each_effect width height w :
  one_loop_each w -> one_loop_each (effect br width height w).
Proof.
  intros Hw. unfold effect, initWebGPU_enter.
  destruct (negb (has_gpu br)); [| destruct (negb (mounted _)); [| destruct (_ || _)]];
    (eapply one_loop_each_spawn; [| exact Hw]; reflexivity).
Qed.

Lemma one_loop_each_cancel id w x :
  sched x = sched w -> one_loop_each w -> one_loop_each (cancelAnimationFrame id x).
Proof.
  intros Hs Hw. unfold cancelAnimationFrame.
  apply one_loop_each_remove. now apply (one_loop_each_sched w x).
Qed.

Lemma one_loop_each_cleanup w : one_loop_each w -> one_loop_each (cleanup w).
Proof.
  intros Hw. unfold cleanup. cbn.
  destruct (animationIdRef (refs w)) as [[|n]|].
  - now apply (one_loop_each_sched w).
  - apply (one_loop_each_sched (cancelAnimationFrame (S n) w)); [reflexivity |].
    now apply (one_loop_each_cancel (S n) w w).
  - now apply (one_loop_each_sched w).
Qed.

(** With one pending frame per generation, the generation of the frame
    that is run has no other frame pending. *)
Lemma fired_frame_was_alone id i g w :
  NoDup (looping w) ->
  find (fun f => (fst f =? id)%nat) (frames (sched w)) = Some (i, g) ->
  g ∉ looping (cancelAnimationFrame id w).
Proof.
  unfold looping, cancelAnimationFrame. cbn.
  induction (frames (sched w)) as [|f l IH]; [discriminate |].
  intros Hnd Hfind.
  change (snd <$> f :: l) with (snd f :: (snd <$> l)) in Hnd.
  apply NoDup_cons in Hnd as [Hnotin Hnd].
  cbn in Hfind. rewrite filter_cons.
  destruct (fst f =? id)%nat eqn:E.
  - inversion Hfind; subst f. cbn in E. apply Nat.eqb_eq in E. subst i.
    destruct (decide (fst (id, g) <> id)) as [Hne | _]; [cbn in Hne; congruence |].
    intros Hin. apply Hnotin. cbn.
    apply list_elem_of_fmap in Hin as (x & Hx & Hin).
    apply list_elem_of_filter in Hin as [_ Hin].
    rewrite Hx. now apply list_elem_of_fmap_2.
  - apply Nat.eqb_neq in E.
    destruct (decide (fst f <> id)) as [_ | Hn]; [| contradiction].
    change (g ∉ snd f :: (snd <$> filter (fun f => fst f <> id) l)).
    apply not_elem_of_cons. split; [| now apply IH].
    intros ->. apply Hnotin.
    apply find_some in Hfind as [Hin _].
    apply list_elem_of_In in Hin.
    now apply (list_elem_of_fmap_2 snd) in Hin.
Qed.

Lemma one_loop_each_animation_frame id fenv w :
  one_loop_each w -> one_loop_each (animation_frame br id fenv w).
Proof.
  intros Hw. unfold animation_frame.
  destruct (find _ _) as [[i g]|] eqn:Hfind; [| exact Hw].
  pose proof (fired_frame_was_alone id i g w (proj1 Hw) Hfind) as Halone.
  assert (Hc : one_loop_each (cancelAnimationFrame id w))
    by now apply (one_loop_each_cancel id w w).
  destruct (render_sched fenv g (cancelAnimationFrame id w)) as [Hr | Hr].
  - now apply (one_loop_each_sched (cancelAnimationFrame id w)).
  - apply (one_loop_each_sched (schedule g (cancelAnimationFrame id w))); [exact Hr |].
    destruct Hw as [_ Hfin].
    destruct (Hfin g) as (t & Ht & Hpc).
    { apply find_some in Hfind as [Hin _]. apply list_elem_of_In in Hin.
      now apply (list_elem_of_fmap_2 snd) in Hin. }
    apply (one_loop_each_schedule g _ t); [exact Halone | exact Ht | exact Hpc | exact Hc].
Qed.

Lemma one_loop_each_step w ev : one_loop_each w -> one_loop_each (step br w ev).
Proof.
  intros Hw. destruct ev as [width height | | gen ans | id fenv | nw nh]; cbn [step].
  - now apply one_loop_each_effect.
  - now apply one_loop_each_cleanup.
  - now apply one_loop_each_settle.
  - now apply one_loop_each_animation_frame.
  - rewrite resize_does_nothing. exact Hw.
Qed.

(** On every run of the hook each generation has at most one frame
    pending. *)
Lemma one_loop_each_run evs : one_loop_each (run br evs initial).
Proof.
  assert (H : forall w, one_loop_each w -> one_loop_each (run br evs w)).
  { unfold run. induction evs as [|ev evs IH]; intros w Hw; cbn [fold_left]; [exact Hw |].
    apply IH. now apply one_loop_each_step. }
  apply H. split; [constructor |]. intros g Hg. inversion Hg.
Qed.

(** The loop is terminal: when the frame the browser runs for generation
    [g] throws, no frame of [g] is pending afterwards, and only pending
    frames call [render]. *)
Lemma failed_frame_ends_loop evs id i g fenv message w1 :
  find (fun f => (fst f =? id)%nat) (frames (sched (run br evs initial))) = Some (i, g) ->
  superseded g (run br evs initial) = false ->
  refs_missing (run br evs initial) = false ->
  frame_try br fenv g (cancelAnimationFrame id (run br evs initial)) = (Throw message, w1) ->
(g ∉ looping (animation_frame br id fenv (run br evs initial))) /\
  error (state (animation_frame br id fenv (run br evs initial)))
    = Some (render_error message).
Proof.
  intros Hfind Hlive Hrefs Htry.
  pose proof (one_loop_each_run evs) as [Hnd _].
  pose proof (fired_frame_was_alone id i g _ Hnd Hfind) as Halone.
  pose proof (thrown_frame _ _ _ _ _ Htry) as (Hr & _ & Hs & _).
  assert (Hlive' : superseded g (cancelAnimationFrame id (run br evs initial)) = false)
    by exact Hlive.
  assert (Hrefs' : refs_missing (cancelAnimationFrame id (run br evs initial)) = false)
    by exact Hrefs.
  unfold animation_frame. rewrite Hfind. unfold render.
  rewrite Hlive', Hrefs', Htry. split; [| reflexivity].
  unfold looping. cbn. rewrite Hs. exact Halone.
Qed.

(** What the guarded block of [resize] does when it runs: the canvas and
    both Scene Targets take the scaled size, the previous targets are
    destroyed, and the post provider's bind group samples the new colour
    target. *)
Lemma resize_body_reallocates nw nh w rh res c d ph po layout smp :
  resourcesRef (refs w) = Some rh ->
  resourcesObjs (heap w) !! rh = Some res ->
  sceneColorTexture res = Some c -> sceneDepthTexture res = Some d ->
  postRendererRef (refs w) = Some ph -> posts (heap w) !! ph = Some po ->
  Post.bindGroupLayout po = Some layout -> Post.sampler po = Some smp ->
  (c < length (textures (gpu (heap w))))%nat ->
  (d < length (textures (gpu (heap w))))%nat ->
  exists w',
    resize_body br nw nh w = (Ok tt, w') /\
    canvas (dom w') = {| canvas_width := scaled br nw; canvas_height := scaled br nh |} /\
    (size_of <$> scene_color_of w') = Some (scaled br nw, scaled br nh) /\
    (size_of <$> scene_depth_of w') = Some (scaled br nw, scaled br nh) /\
    (tex_destroyed <$> scene_color_of w') = Some false /\
    (tex_destroyed <$> textures (gpu (heap w')) !! c) = Some true /\
    (tex_destroyed <$> textures (gpu (heap w')) !! d) = Some true /\
    (sceneColorTexture <$> current_resources w') = Some (post_source_of w').
Proof.
  intros Hrh Hres Hc Hd Hph Hpo Hlay Hsmp Hc_lt Hd_lt.
  unfold resize_body, mbind, modify, gets, required, lift, ret, raise.
  simpl. rewrite Hrh. simpl. rewrite Hres. simpl. rewrite Hph. simpl. rewrite Hpo. simpl.
  unfold Post.resize, Post.updateSceneTexture. rewrite Hlay, Hsmp. simpl.
  rewrite Hc, Hd. simpl.
  eexists. split; [reflexivity |].
  set (ts := textures (gpu (heap w))) in *.
  assert (Hlen : length (alter with_destroyed d (alter with_destroyed c ts)) = length ts)
    by now rewrite !length_alter.
  assert (Hph_lt : (ph < length (posts (heap w)))%nat) by (eapply lookup_lt_Some; eauto).
  unfold scene_color_of, scene_depth_of, current_resources, post_source_of, texture_of.
  simpl. rewrite Hrh, Hph.
  rewrite !list_lookup_alter_eq.
  rewrite Hres. simpl.
  rewrite list_lookup_insert_eq by exact Hph_lt. simpl.
  rewrite (lookup_snoc (bindGroups (gpu (heap w)))).
  rewrite length_app, Hlen. simpl length.
  assert (Hdestroyed : forall i, (i = c \/ i = d) ->
            tex_destroyed <$> alter with_destroyed d (alter with_destroyed c ts) !! i
            = Some true).
  { intros i Hi.
    assert (Hi_lt : (i < length ts)%nat) by (destruct Hi; subst; assumption).
    destruct (lookup_lt_is_Some_2 ts i Hi_lt) as [t Ht].
    rewrite !list_lookup_alter.
    destruct (decide (d = i)) as [->|Hdi].
    - destruct (decide (c = i)) as [->|Hci]; rewrite Ht; reflexivity.
    - destruct (decide (c = i)) as [->|Hci]; [rewrite Ht; reflexivity |].
      destruct Hi; congruence. }
  split; [reflexivity |].
  split.
  { rewrite lookup_snoc_old by (rewrite length_app, Hlen; simpl; lia).
    rewrite lookup_snoc_eq by (symmetry; exact Hlen). reflexivity. }
  split.
  { rewrite lookup_snoc_eq by (rewrite length_app, Hlen; simpl; lia). reflexivity. }
  split.
  { rewrite lookup_snoc_old by (rewrite length_app, Hlen; simpl; lia).
    rewrite lookup_snoc_eq by (symmetry; exact Hlen). reflexivity. }
  split.
  { rewrite !lookup_snoc_old by (rewrite ?length_app, Hlen; simpl; lia).
    apply Hdestroyed. now left. }
  split.
  { rewrite !lookup_snoc_old by (rewrite ?length_app, Hlen; simpl; lia).
    apply Hdestroyed. now right. }
  reflexivity.
Qed.

End HookFacts.

(** ** Runs of the hook on the sample inputs *)
Section Runs.
Import Gpu Extract Providers Hook.

Ltac crunch := repeat match goal with |- _ /\ _ => split end; vm_compute; reflexivity.

Example running_is_running :
  providers_initialized running /\ superseded 1 running = false /\
  error (state running) = None /\
  (size_of <$> scene_color_of running) = Some (800, 600).
Proof.
  split; [| crunch].
  split; [vm_compute; reflexivity |].
  split; [| split].
  - exists 0%nat. eexists.
    split; [vm_compute; reflexivity | split; [vm_compute; reflexivity |]].
    eexists. vm_compute. reflexivity.
  - exists 0%nat. eexists.
    split; [vm_compute; reflexivity | split; [vm_compute; reflexivity | reflexivity]].
  - exists 0%nat. eexists.
    split; [vm_compute; reflexivity | split; [vm_compute; reflexivity | reflexivity]].
Qed.

(** C2. On the code: with the hook running and every provider initialized
    at 800x600, [resize(1024, 768)] changes nothing; the scene targets keep
    their size and are not destroyed. *)
Theorem resize_is_ignored_when_running :
  providers_initialized running /\
  step chrome running (Resize 1024 768) = running /\
  (size_of <$> scene_color_of (step chrome running (Resize 1024 768))) = Some (800, 600) /\
  (size_of <$> scene_depth_of (step chrome running (Resize 1024 768))) = Some (800, 600) /\
  (tex_destroyed <$> scene_color_of (step chrome running (Resize 1024 768))) = Some false /\
  (scaled chrome 1024, scaled chrome 768) = (1024, 768).
Proof.
  split; [apply running_is_running |].
  crunch.
Qed.

(** C1. On the code: generation 1 installs the device, the context, the
    canvas size, the configuration, the resources object and the triangle
    provider after generation 2 has begun. *)
Theorem superseded_generation_installs :
  generationRef (refs overtaken) = 2%nat /\
  superseded 1 overtaken = true /\
  installs (out overtaken) =
    map (fun s => {| slot := s; by_gen := 1; current_gen := 2; alive_then := true |})
        [ SlotTriangleRenderer; SlotResources; SlotConfiguration;
          SlotCanvasSize; SlotContext; SlotDevice ] /\
  canvas (dom overtaken) = {| canvas_width := 800; canvas_height := 600 |} /\
  find_task 2 overtaken =
    Some {| t_gen := 2; t_width := 1024; t_height := 768; t_pc := AtAdapter |}.
Proof. crunch. Qed.

(** The late assignments of generation 1 stop the frame loop of the live
    generation 2: its next frame reads the resources object generation 1
    installed, which has no scene textures. *)
Example late_install_breaks_live_loop :
  superseded 2 overtaken_late = false /\
  error (state overtaken_late) = Some (render_error undefined_createView) /\
  frames (sched overtaken_late) = [].
Proof. crunch. Qed.

End Runs.

(** ** The theorems with hypotheses, applied to the sample inputs *)
Section Witnesses.
Import Gpu Extract Providers Hook.

Lemma missing_texcoord_gives_zeros_witness :
  exists md, extractMesh (triangle_document None) = Ok md /\
             vertexCount md = of_nat 3 /\
             positions md = sample_positions /\
             length (texcoords md) = 6%nat /\
             (forall i, (i < 6)%nat -> texcoords md !! i = Some zero).
Proof.
  apply (missing_texcoord_gives_zeros (triangle_document None)
           (sample_mesh None) [] (sample_primitive None) [] sample_positions 3);
    vm_compute; reflexivity.
Defined.


Lemma loadTexture_fallback_witness :
  exists t g',
    loadTexture no_decoder (triangle_document None) Gpu.empty = (Ok t, g') /\
    textures g' !! t = Some placeholder /\
    tex_texels placeholder =
      TexelBytes [255; 0; 0; 255;  0; 255; 0; 255;
                  0; 0; 255; 255;  255; 255; 0; 255] 8 2 2 /\
    (tex_width placeholder, tex_height placeholder) = (2, 2).
Proof.
  apply (loadTexture_fallback no_decoder (triangle_document None) Gpu.empty).
  left. reflexivity.
Defined.


Lemma render_failure_is_terminal_witness :
  error (state (render chrome device_lost_frame 1 running))
    = Some "Render error: Device is lost" /\
  sched (render chrome device_lost_frame 1 running) = sched running /\
  animationIdRef (refs (render chrome device_lost_frame 1 running))
    = animationIdRef (refs running) /\
  submitted (out (render chrome device_lost_frame 1 running)) = submitted (out running).
Proof.
  apply (render_failure_is_terminal chrome device_lost_frame 1 running
           "Device is lost" (snd (frame_try chrome device_lost_frame 1 running)));
    vm_compute; reflexivity.
Defined.

Lemma torn_down_generation_is_silent_witness :
  (forall fenv,
     render chrome fenv 1 (run chrome (Effect 1024 768 :: startup 2) (cleanup running))
     = run chrome (Effect 1024 768 :: startup 2) (cleanup running)) /\
  submissions_of 1 (run chrome (Effect 1024 768 :: startup 2) (cleanup running))
    = submissions_of 1 running /\
  (forall g1 g2,
     superseded g1 (run chrome (Effect 1024 768 :: startup 2) (cleanup running)) = false ->
     superseded g2 (run chrome (Effect 1024 768 :: startup 2) (cleanup running)) = false ->
     g1 = g2).
Proof.
  apply (torn_down_generation_is_silent chrome 1 running (Effect 1024 768 :: startup 2)).
  vm_compute. lia.
Defined.

End Witnesses.
